(** * Window chrome of the Windows desktop frontend

    A shallow embedding of
    [v2/internal/frontend/desktop/windows/window.go]: the [Window] struct,
    its constructor [NewWindow], the full-screen and size-constraint methods
    and the message handler [WndProc].

    The Go code talks to two foreign layers, the [winc] toolkit (whose
    [Form] is embedded in [Window]) and the raw [w32] bindings.  Neither is
    part of the repository, so both are taken as an interface, the class
    [Win32] below: every lemma about [Window] that is stated for an
    arbitrary instance holds whatever the toolkit does.  A small executable
    instance, [Sim], is used to run the code on concrete messages.

    The second part, [BuildCmd], embeds the build command of
    [v2/cmd/wails/internal/commands/build/build.go] over a host interface of
    its own, with the executable host [BuildSim]. *)

From Stdlib Require Import ZArith Bool List Ascii String Lia.
Import ListNotations.
Local Open Scope Z_scope.

Set Implicit Arguments.

(** ** Machine integers

    Go's [int] is 64 bits wide on windows/amd64; [int32] fields of [RECT]
    are 32 bits wide.  Both wrap around silently. *)

Module GoInt.

Definition wrap (bits : Z) (z : Z) : Z :=
  (z + 2 ^ (bits - 1)) mod 2 ^ bits - 2 ^ (bits - 1).

Definition in_range (bits : Z) (z : Z) : Prop :=
  - 2 ^ (bits - 1) <= z < 2 ^ (bits - 1).

(** [int32(x)], also the result of every [int32] operation. *)
Definition int32 (z : Z) : Z := wrap 32 z.
(** the result of every [int] operation. *)
Definition int (z : Z) : Z := wrap 64 z.
(** [uint32(x)]. *)
Definition uint32 (z : Z) : Z := z mod 2 ^ 32.

Definition add (a b : Z) : Z := int (a + b).
Definition add32 (a b : Z) : Z := int32 (a + b).
Definition sub32 (a b : Z) : Z := int32 (a - b).

End GoInt.

(** ** Constants of the [w32] package (the Win32 values) *)

Module w32.

Definition WM_CREATE : Z := 0x0001.
Definition WM_MOVE : Z := 0x0003.
Definition WM_NCCALCSIZE : Z := 0x0083.
Definition WM_NCHITTEST : Z := 0x0084.
Definition WM_NCLBUTTONDOWN : Z := 0x00A1.
Definition WM_CHANGEUISTATE : Z := 0x0127.
Definition WM_MOVING : Z := 0x0216.
Definition WM_DPICHANGED : Z := 0x02E0.

Definition HTNOWHERE : Z := 0.
Definition HTCLIENT : Z := 1.
Definition HTCAPTION : Z := 2.
Definition HTLEFT : Z := 10.
Definition HTRIGHT : Z := 11.
Definition HTTOP : Z := 12.
Definition HTTOPLEFT : Z := 13.
Definition HTTOPRIGHT : Z := 14.
Definition HTBOTTOM : Z := 15.
Definition HTBOTTOMLEFT : Z := 16.
Definition HTBOTTOMRIGHT : Z := 17.

Definition WS_MAXIMIZE : Z := 0x01000000.
Definition WS_THICKFRAME : Z := 0x00040000.
Definition WS_SYSMENU : Z := 0x00080000.
Definition WS_MAXIMIZEBOX : Z := 0x00010000.
Definition WS_MINIMIZEBOX : Z := 0x00020000.

Definition WS_EX_TOPMOST : Z := 0x00000008.
Definition WS_EX_CONTROLPARENT : Z := 0x00010000.
Definition WS_EX_APPWINDOW : Z := 0x00040000.
Definition WS_EX_NOREDIRECTIONBITMAP : Z := 0x00200000.

Definition SWP_NOSIZE : Z := 0x0001.
Definition SWP_NOMOVE : Z := 0x0002.
Definition SWP_NOZORDER : Z := 0x0004.
Definition SWP_NOACTIVATE : Z := 0x0010.
Definition SWP_FRAMECHANGED : Z := 0x0020.

Definition GWL_STYLE : Z := -16.
Definition SM_CXFRAME : Z := 32.
Definition SM_CYFRAME : Z := 33.
Definition SM_CXPADDEDBORDER : Z := 92.
Definition MONITOR_DEFAULTTONEAREST : Z := 2.
Definition MDT_EFFECTIVE_DPI : Z := 0.
Definition UIS_INITIALIZE : Z := 3.

(** [w32.RECT]: four [int32] fields. *)
Record RECT : Type := mkRECT {
  Left : Z;
  Top : Z;
  Right : Z;
  Bottom : Z
}.

(** [LOWORD(dw uint32) uint16] and [HIWORD(dw uint32) uint16]. *)
Definition LOWORD (dw : Z) : Z := dw mod 2 ^ 16.
Definition HIWORD (dw : Z) : Z := (Z.shiftr dw 16) mod 2 ^ 16.

End w32.

Import w32.

(** Handles and pointers are machine words; a nil pointer or interface is
    [None]. *)
Definition HWND : Type := Z.
Definition HMONITOR : Type := Z.
Definition uintptr : Type := Z.
Definition Controller : Type := option HWND.
Definition Icon : Type := Z.
Definition Font : Type := Z.
Definition MenuRef : Type := Z.

(** ** Application options *)

(** Modelled from the spec: [options.Windows] (pkg/options/windows is not
    among the sources), with the two fields [NewWindow] reads. *)
Record WindowsOptions : Type := mkWindowsOptions {
  WindowIsTranslucent : bool;
  DisableWindowIcon : bool
}.

(** Modelled from the spec: [options.App] (pkg/options is not among the
    sources); the WindowOptions of the data model, with the fields that
    [window.go] reads and under the names it reads them by. *)
Record App : Type := mkApp {
  Title : string;
  Width : Z;
  Height : Z;
  MinWidth : Z;
  MinHeight : Z;
  MaxWidth : Z;
  MaxHeight : Z;
  DisableResize : bool;
  Fullscreen_ : bool;       (* the field [Fullscreen] *)
  Frameless : bool;
  AlwaysOnTop : bool;
  Menu : option MenuRef;
  Windows : option WindowsOptions
}.

(** ** The toolkit and platform interface

    [F] is the state of the embedded [winc.Form] together with the part of
    the operating system it handles (the native window, the monitor, the
    memory that message parameters point into).  Mutating calls return the
    next state, queries read it.  Results that the Go code throws away (the
    [bool] of [SetWindowPos], the [HRESULT] of [GetDPIForMonitor], ...) are
    not part of the signatures. *)

Class Win32 (F : Type) : Type := {
  (* methods of winc.Form and of the ControlBase under it *)
  Form_SetIsForm : bool -> F -> F;
  Form_SetHandle : HWND -> F -> F;
  Form_Handle : F -> HWND;
  Form_SetParent : Controller -> F -> F;
  Form_SetIcon : Z -> Icon -> F -> F;
  Form_SetSize : Z -> Z -> F -> F;
  Form_SetText : string -> F -> F;
  Form_EnableSizable : bool -> F -> F;
  Form_EnableMaxButton : bool -> F -> F;
  Form_SetMinSize : Z -> Z -> F -> F;
  Form_SetMaxSize : Z -> Z -> F -> F;
  Form_SetTranslucentBackground : F -> F;
  Form_DisableIcon : F -> F;
  Form_SetFont : Font -> F -> F;
  Form_SetMenu : MenuRef -> F -> F;
  Form_Fullscreen : F -> F;
  Form_UnFullscreen : F -> F;
  Form_IsFullScreen : F -> bool;
  Form_WndProc : Z -> uintptr -> uintptr -> F -> uintptr * F;
  (* package winc *)
  winc_RegClassOnlyOnce : string -> F -> F;
  winc_CreateWindow : string -> Controller -> Z -> Z -> F -> HWND * F;
  winc_RegMsgHandler : F -> F;
  winc_NewIconFromResource : F -> option Icon;
  winc_DefaultFont : Font;
  winc_ScaleWithDPI : Z -> Z -> Z;
  (* package w32 *)
  w32_SendMessage : HWND -> Z -> uintptr -> uintptr -> F -> F;
  w32_SetFocus : HWND -> F -> F;
  w32_SetWindowPos : HWND -> HWND -> Z -> Z -> Z -> Z -> Z -> F -> F;
  w32_GetWindowRect : HWND -> F -> RECT;
  w32_GetWindowLong : HWND -> Z -> F -> Z;
  w32_MonitorFromWindow : HWND -> Z -> F -> HMONITOR;
  w32_GetMonitorInfo : HMONITOR -> F -> bool;
  w32_GetDPIForMonitor : HMONITOR -> Z -> F -> Z * Z;
  w32_GetSystemMetrics : Z -> F -> Z;
  w32_ScreenToClient : HWND -> Z -> Z -> F -> Z * Z * bool;
  (* the RECT that a message parameter points to *)
  load_RECT : uintptr -> F -> RECT;
  store_RECT : uintptr -> RECT -> F -> F
}.

(** ** The window *)

Section WindowCode.

Context {F : Type} `{Win32 F}.

(** [type Window struct]: the embedded form, the options, the menu, the
    position observer and the four stored size constraints.  The observer
    is a [func() error] whose result the code ignores; it acts on the
    toolkit state. *)
Record Window : Type := mkWindow {
  Form : F;
  frontendOptions : App;
  applicationMenu : option MenuRef;
  notifyParentWindowPositionChanged : option (F -> F);
  minWidth : Z;
  minHeight : Z;
  maxWidth : Z;
  maxHeight : Z
}.

Definition with_Form (w : Window) (f : F) : Window :=
  mkWindow f (frontendOptions w) (applicationMenu w)
           (notifyParentWindowPositionChanged w)
           (minWidth w) (minHeight w) (maxWidth w) (maxHeight w).

(** The constraint part of the geometry state, as stored in the struct. *)
Definition constraints (w : Window) : Z * Z * Z * Z :=
  (minWidth w, minHeight w, maxWidth w, maxHeight w).

(** [func (w *Window) SetMinSize(minWidth int, minHeight int)] *)
Definition SetMinSize (w : Window) (minWidth' minHeight' : Z) : Window :=
  mkWindow (Form_SetMinSize minWidth' minHeight' (Form w))
           (frontendOptions w) (applicationMenu w)
           (notifyParentWindowPositionChanged w)
           minWidth' minHeight' (maxWidth w) (maxHeight w).

(** [func (w *Window) SetMaxSize(maxWidth int, maxHeight int)] *)
Definition SetMaxSize (w : Window) (maxWidth' maxHeight' : Z) : Window :=
  mkWindow (Form_SetMaxSize maxWidth' maxHeight' (Form w))
           (frontendOptions w) (applicationMenu w)
           (notifyParentWindowPositionChanged w)
           (minWidth w) (minHeight w) maxWidth' maxHeight'.

(** [func (w *Window) Fullscreen()] *)
Definition Fullscreen (w : Window) : Window :=
  let f1 := Form_SetMaxSize 0 0 (Form w) in
  let f2 := Form_SetMinSize 0 0 f1 in
  with_Form w (Form_Fullscreen f2).

(** [func (w *Window) UnFullscreen()]; [w.IsFullScreen()] is the promoted
    method of the form. *)
Definition UnFullscreen (w : Window) : Window :=
  if negb (Form_IsFullScreen (Form w)) then w
  else
    let w1 := with_Form w (Form_UnFullscreen (Form w)) in
    let w2 := SetMinSize w1 (minWidth w1) (minHeight w1) in
    SetMaxSize w2 (maxWidth w2) (maxHeight w2).

(** Modelled from the spec: [SetApplicationMenu] (menu.go is not among the
    sources).  Menu construction is outside the geometry state: the menu
    is remembered and handed to the toolkit. *)
Definition SetApplicationMenu (w : Window) (m : MenuRef) : Window :=
  mkWindow (Form_SetMenu m (Form w))
           (frontendOptions w) (Some m)
           (notifyParentWindowPositionChanged w)
           (minWidth w) (minHeight w) (maxWidth w) (maxHeight w).

Definition windows_flag (get : WindowsOptions -> bool) (o : App) : bool :=
  match Windows o with Some wo => get wo | None => false end.

(** The extended style computed at the top of [NewWindow]. *)
Definition exStyle_of (appoptions : App) : Z :=
  let e0 :=
    match Windows appoptions with
    | Some wo =>
        let e := Z.lor WS_EX_CONTROLPARENT WS_EX_APPWINDOW in
        if WindowIsTranslucent wo then Z.lor e WS_EX_NOREDIRECTIONBITMAP
        else e
    | None => 0
    end in
  if AlwaysOnTop appoptions then Z.lor e0 WS_EX_TOPMOST else e0.

Definition dwStyle : Z :=
  Z.lor (Z.lor (Z.lor WS_THICKFRAME WS_SYSMENU) WS_MAXIMIZEBOX)
        WS_MINIMIZEBOX.

(** [func NewWindow(parent winc.Controller, appoptions *options.App)];
    [sys] is the toolkit state the zero-valued form starts from. *)
Definition NewWindow (parent : Controller) (appoptions : App) (sys : F)
  : Window :=
  let result :=
    mkWindow sys appoptions None None
             (MinWidth appoptions) (MinHeight appoptions)
             (MaxWidth appoptions) (MaxHeight appoptions) in
  let f := Form_SetIsForm true (Form result) in
  let f := winc_RegClassOnlyOnce "wailsWindow" f in
  let '(h, f) :=
    winc_CreateWindow "wailsWindow" parent (exStyle_of appoptions)
                      dwStyle f in
  let f := Form_SetHandle h f in
  let f := winc_RegMsgHandler f in
  let f := Form_SetParent parent f in
  let loadIcon := negb (windows_flag DisableWindowIcon appoptions) in
  let f :=
    if loadIcon then
      match winc_NewIconFromResource f with
      | Some ico => Form_SetIcon 0 ico f
      | None => f
      end
    else f in
  let f := Form_SetSize (Width appoptions) (Height appoptions) f in
  let f := Form_SetText (Title appoptions) f in
  let f := Form_EnableSizable (negb (DisableResize appoptions)) f in
  let result := with_Form result f in
  let result :=
    if negb (Fullscreen_ appoptions) then
      let r :=
        with_Form result
          (Form_EnableMaxButton (negb (DisableResize appoptions))
                                (Form result)) in
      let r := SetMinSize r (MinWidth appoptions) (MinHeight appoptions) in
      SetMaxSize r (MaxWidth appoptions) (MaxHeight appoptions)
    else result in
  let f := Form result in
  let f :=
    match Windows appoptions with
    | Some wo =>
        let f := if WindowIsTranslucent wo
                 then Form_SetTranslucentBackground f else f in
        if DisableWindowIcon wo then Form_DisableIcon f else f
    | None => f
    end in
  let f :=
    w32_SendMessage (Form_Handle f) WM_CHANGEUISTATE UIS_INITIALIZE 0 f in
  let f := Form_SetFont winc_DefaultFont f in
  let result := with_Form result f in
  match Menu appoptions with
  | Some m => SetApplicationMenu result m
  | None => result
  end.

(** *** The message handler *)

(** The first [switch msg] of [WndProc]: focus on a non-client click, the
    position observer on a move, and the suggested rectangle of a DPI
    change applied through [SetWindowPos].  The fields of [RECT] are
    [int32], so the two differences are taken in [int32]. *)
Definition WndProc_notifications (w : Window) (msg : Z) (lparam : uintptr)
  : F :=
  let f := Form w in
  if msg =? WM_NCLBUTTONDOWN then
    w32_SetFocus (Form_Handle f) f
  else if (msg =? WM_MOVE) || (msg =? WM_MOVING) then
    match notifyParentWindowPositionChanged w with
    | Some notify => notify f
    | None => f
    end
  else if msg =? 0x02E0 then
    let newWindowSize := load_RECT lparam f in
    w32_SetWindowPos (Form_Handle f) 0
      (Left newWindowSize)
      (Top newWindowSize)
      (GoInt.sub32 (Right newWindowSize) (Left newWindowSize))
      (GoInt.sub32 (Bottom newWindowSize) (Top newWindowSize))
      (Z.lor SWP_NOZORDER SWP_NOACTIVATE) f
  else f.

(** The [switch hit] inside the hit-test case.  A Go case clause does not
    fall through into the next one: the first eight clauses have an empty
    body and leave the switch, only [HTBOTTOMLEFT] reaches [return hit]. *)
Definition hit_switch (hit : uintptr) : option uintptr :=
  if hit =? HTNOWHERE then None
  else if hit =? HTRIGHT then None
  else if hit =? HTLEFT then None
  else if hit =? HTTOPLEFT then None
  else if hit =? HTTOP then None
  else if hit =? HTTOPRIGHT then None
  else if hit =? HTBOTTOMRIGHT then None
  else if hit =? HTBOTTOM then None
  else if hit =? HTBOTTOMLEFT then Some hit
  else None.

(** The rest of the hit-test case, from [MonitorFromWindow] to the final
    [return w32.HTCLIENT]. *)
Definition top_edge_correction (o : App) (lparam : uintptr) (f : F)
  : uintptr :=
  let monitor :=
    w32_MonitorFromWindow (Form_Handle f) MONITOR_DEFAULTTONEAREST f in
  if w32_GetMonitorInfo monitor f then
    let maxWidth := MaxWidth o in
    let maxHeight := MaxHeight o in
    if (0 <? maxWidth) || (0 <? maxHeight) then
      let '(dpiX, dpiY) :=
        w32_GetDPIForMonitor monitor MDT_EFFECTIVE_DPI f in
      let frameY :=
        winc_ScaleWithDPI (w32_GetSystemMetrics SM_CYFRAME f) dpiY in
      let padding :=
        winc_ScaleWithDPI (w32_GetSystemMetrics 92 f) dpiX in
      let '(_, cursorY, ok) :=
        w32_ScreenToClient (Form_Handle f)
          (LOWORD (GoInt.uint32 lparam)) (HIWORD (GoInt.uint32 lparam)) f in
      if ok then
        if (0 <? cursorY) && (cursorY <? GoInt.add frameY padding)
        then HTTOP
        else HTCLIENT
      else HTCLIENT
    else HTCLIENT
  else HTCLIENT.

(** [case w32.WM_NCHITTEST] *)
Definition WndProc_NCHITTEST (w : Window) (msg : Z)
           (wparam lparam : uintptr) (f : F) : uintptr * Window :=
  let '(hit, f) := Form_WndProc msg wparam lparam f in
  match hit_switch hit with
  | Some r => (r, with_Form w f)
  | None => (top_edge_correction (frontendOptions w) lparam f,
             with_Form w f)
  end.

(** The four updates of [params.rgrc[0]] in the frame-calculation case. *)
Definition adjust_rgrc0 (r : RECT) (frameX frameY padding : Z)
           (style : Z) : RECT :=
  mkRECT
    (GoInt.add32 (Left r) (GoInt.int32 (GoInt.add frameX padding)))
    (if negb (Z.land style WS_MAXIMIZE =? 0)
     then GoInt.add32 (Top r) (GoInt.int32 padding)
     else Top r)
    (GoInt.sub32 (Right r) (GoInt.int32 (GoInt.add frameX padding)))
    (GoInt.sub32 (Bottom r) (GoInt.int32 (GoInt.add frameY padding))).

(** [case w32.WM_NCCALCSIZE], the branch [wparam != 0].
    [NCCALCSIZE_PARAMS] starts with [rgrc[0]], so [rgrc[0]] is the [RECT]
    at the address [lparam]. *)
Definition WndProc_NCCALCSIZE (w : Window) (lparam : uintptr) (f : F)
  : uintptr * Window :=
  let style := GoInt.uint32 (w32_GetWindowLong (Form_Handle f) GWL_STYLE f) in
  let monitor :=
    w32_MonitorFromWindow (Form_Handle f) MONITOR_DEFAULTTONEAREST f in
  if w32_GetMonitorInfo monitor f then
    let maxWidth := MaxWidth (frontendOptions w) in
    let maxHeight := MaxHeight (frontendOptions w) in
    if (0 <? maxWidth) || (0 <? maxHeight) then
      let '(dpiX, dpiY) :=
        w32_GetDPIForMonitor monitor MDT_EFFECTIVE_DPI f in
      let frameX :=
        winc_ScaleWithDPI (w32_GetSystemMetrics SM_CXFRAME f) dpiX in
      let frameY :=
        winc_ScaleWithDPI (w32_GetSystemMetrics SM_CYFRAME f) dpiY in
      let padding :=
        winc_ScaleWithDPI (w32_GetSystemMetrics 92 f) dpiX in
      let rgrc0 := load_RECT lparam f in
      (0, with_Form w
            (store_RECT lparam
               (adjust_rgrc0 rgrc0 frameX frameY padding style) f))
    else (0, with_Form w f)
  else (0, with_Form w f).

(** The final [return w.Form.WndProc(msg, wparam, lparam)]. *)
Definition WndProc_default (w : Window) (msg : Z)
           (wparam lparam : uintptr) (f : F) : uintptr * Window :=
  let '(r, f) := Form_WndProc msg wparam lparam f in
  (r, with_Form w f).

(** [func (w *Window) WndProc(msg uint32, wparam, lparam uintptr) uintptr] *)
Definition WndProc (w : Window) (msg : Z) (wparam lparam : uintptr)
  : uintptr * Window :=
  let f := WndProc_notifications w msg lparam in
  if Frameless (frontendOptions w) then
    if msg =? WM_CREATE then
      let sizeRect := w32_GetWindowRect (Form_Handle f) f in
      let f :=
        w32_SetWindowPos (Form_Handle f) 0
          (Left sizeRect)
          (Top sizeRect)
          (GoInt.sub32 (Right sizeRect) (Left sizeRect))
          (GoInt.sub32 (Bottom sizeRect) (Top sizeRect))
          (Z.lor (Z.lor SWP_FRAMECHANGED SWP_NOMOVE) SWP_NOSIZE) f in
      WndProc_default w msg wparam lparam f
    else if msg =? WM_NCHITTEST then
      WndProc_NCHITTEST w msg wparam lparam f
    else if msg =? WM_NCCALCSIZE then
      if negb (wparam =? 0) then WndProc_NCCALCSIZE w lparam f
      else WndProc_default w msg wparam lparam f
    else WndProc_default w msg wparam lparam f
  else WndProc_default w msg wparam lparam f.

(** *** Calls on a window, as the application and the message loop make
    them *)
Inductive Call : Type :=
| CallSetMinSize (minWidth minHeight : Z)
| CallSetMaxSize (maxWidth maxHeight : Z)
| CallFullscreen
| CallUnFullscreen
| CallWndProc (msg : Z) (wparam lparam : uintptr).

Definition call (w : Window) (c : Call) : Window :=
  match c with
  | CallSetMinSize mw mh => SetMinSize w mw mh
  | CallSetMaxSize mw mh => SetMaxSize w mw mh
  | CallFullscreen => Fullscreen w
  | CallUnFullscreen => UnFullscreen w
  | CallWndProc msg wparam lparam => snd (WndProc w msg wparam lparam)
  end.

Definition calls (w : Window) (cs : list Call) : Window :=
  fold_left call cs w.

Definition is_size_call (c : Call) : bool :=
  match c with
  | CallSetMinSize _ _ | CallSetMaxSize _ _ => true
  | _ => false
  end.

(** What one call does to the stored constraints. *)
Definition constraints_after (w : Window) (c : Call) : Z * Z * Z * Z :=
  match c with
  | CallSetMinSize a b => (a, b, maxWidth w, maxHeight w)
  | CallSetMaxSize a b => (minWidth w, minHeight w, a, b)
  | _ => constraints w
  end.

End WindowCode.

Arguments Window F : clear implicits.

(** ** An executable platform

    A test double for the toolkit: it keeps what the platform would keep
    (the native constraints, the full-screen flag, the window bounds, the
    memory behind message parameters), answers queries from a fixed
    [Config], and records every mutating call in a trace. *)

Module Sim.

Inductive Event : Type :=
| EvSetMinSize (w h : Z)
| EvSetMaxSize (w h : Z)
| EvFullscreen
| EvUnFullscreen
| EvSetFocus (h : HWND)
| EvSetWindowPos (h after x y cx cy flags : Z)
| EvSendMessage (h msg wparam lparam : Z)
| EvDefault (msg wparam lparam : Z)
| EvSetup (what : string).

(** What the platform answers when asked. *)
Record Config : Type := mkConfig {
  monitorInfo : bool;          (* does GetMonitorInfo succeed *)
  dpi : Z * Z;                 (* GetDPIForMonitor *)
  cxFrame : Z;                 (* SM_CXFRAME *)
  cyFrame : Z;                 (* SM_CYFRAME *)
  cxPaddedBorder : Z;          (* SM_CXPADDEDBORDER *)
  style : Z;                   (* GWL_STYLE *)
  defaultHit : uintptr;        (* the default answer to WM_NCHITTEST *)
  clientOrigin : Z * Z;        (* screen position of the client area *)
  screenToClient : bool;       (* does ScreenToClient succeed *)
  newHandle : HWND             (* what CreateWindow returns *)
}.

Record State : Type := mkState {
  config : Config;
  hwnd : HWND;
  minSize : Z * Z;
  maxSize : Z * Z;
  isFullscreen : bool;
  bounds : RECT;
  memory : list (uintptr * RECT);
  trace : list Event
}.

Definition log (e : Event) (s : State) : State :=
  mkState (config s) (hwnd s) (minSize s) (maxSize s) (isFullscreen s)
          (bounds s) (memory s) (e :: trace s).

Definition set_hwnd (h : HWND) (s : State) : State :=
  mkState (config s) h (minSize s) (maxSize s) (isFullscreen s)
          (bounds s) (memory s) (trace s).

Definition set_minSize (m : Z * Z) (s : State) : State :=
  mkState (config s) (hwnd s) m (maxSize s) (isFullscreen s)
          (bounds s) (memory s) (trace s).

Definition set_maxSize (m : Z * Z) (s : State) : State :=
  mkState (config s) (hwnd s) (minSize s) m (isFullscreen s)
          (bounds s) (memory s) (trace s).

Definition set_isFullscreen (b : bool) (s : State) : State :=
  mkState (config s) (hwnd s) (minSize s) (maxSize s) b
          (bounds s) (memory s) (trace s).

Definition set_bounds (r : RECT) (s : State) : State :=
  mkState (config s) (hwnd s) (minSize s) (maxSize s) (isFullscreen s)
          r (memory s) (trace s).

Definition set_memory (m : list (uintptr * RECT)) (s : State) : State :=
  mkState (config s) (hwnd s) (minSize s) (maxSize s) (isFullscreen s)
          (bounds s) m (trace s).

Fixpoint lookup (a : uintptr) (m : list (uintptr * RECT)) : RECT :=
  match m with
  | [] => mkRECT 0 0 0 0
  | (a', r) :: m' => if a =? a' then r else lookup a m'
  end.

(** [SetWindowPos] moves unless told [SWP_NOMOVE] and sizes unless told
    [SWP_NOSIZE]. *)
Definition setWindowPos (x y cx cy flags : Z) (b : RECT) : RECT :=
  let move := Z.land flags SWP_NOMOVE =? 0 in
  let size := Z.land flags SWP_NOSIZE =? 0 in
  let l := if move then x else Left b in
  let t := if move then y else Top b in
  let w := if size then cx else Right b - Left b in
  let h := if size then cy else Bottom b - Top b in
  mkRECT l t (l + w) (t + h).

Definition systemMetrics (c : Config) (index : Z) : Z :=
  if index =? SM_CXFRAME then cxFrame c
  else if index =? SM_CYFRAME then cyFrame c
  else if index =? SM_CXPADDEDBORDER then cxPaddedBorder c
  else 0.

(** pixels at 96 dpi scaled to [d] dpi *)
Definition scaleWithDPI (pixels d : Z) : Z := Z.quot (pixels * d) 96.

#[global] Instance win32 : Win32 State := {|
  Form_SetIsForm := fun _ s => log (EvSetup "SetIsForm") s;
  Form_SetHandle := fun h s => set_hwnd h s;
  Form_Handle := hwnd;
  Form_SetParent := fun _ s => log (EvSetup "SetParent") s;
  Form_SetIcon := fun _ _ s => log (EvSetup "SetIcon") s;
  Form_SetSize := fun w h s =>
    set_bounds (mkRECT (Left (bounds s)) (Top (bounds s))
                       (Left (bounds s) + w) (Top (bounds s) + h)) s;
  Form_SetText := fun _ s => log (EvSetup "SetText") s;
  Form_EnableSizable := fun _ s => log (EvSetup "EnableSizable") s;
  Form_EnableMaxButton := fun _ s => log (EvSetup "EnableMaxButton") s;
  Form_SetMinSize := fun w h s => log (EvSetMinSize w h) (set_minSize (w, h) s);
  Form_SetMaxSize := fun w h s => log (EvSetMaxSize w h) (set_maxSize (w, h) s);
  Form_SetTranslucentBackground := fun s => log (EvSetup "SetTranslucentBackground") s;
  Form_DisableIcon := fun s => log (EvSetup "DisableIcon") s;
  Form_SetFont := fun _ s => log (EvSetup "SetFont") s;
  Form_SetMenu := fun _ s => log (EvSetup "SetMenu") s;
  Form_Fullscreen := fun s =>
    if isFullscreen s then s else log EvFullscreen (set_isFullscreen true s);
  Form_UnFullscreen := fun s =>
    if isFullscreen s then log EvUnFullscreen (set_isFullscreen false s) else s;
  Form_IsFullScreen := isFullscreen;
  Form_WndProc := fun msg wparam lparam s =>
    (if msg =? WM_NCHITTEST then defaultHit (config s) else 0,
     log (EvDefault msg wparam lparam) s);
  winc_RegClassOnlyOnce := fun _ s => log (EvSetup "RegClassOnlyOnce") s;
  winc_CreateWindow := fun _ _ _ _ s =>
    (newHandle (config s), log (EvSetup "CreateWindow") s);
  winc_RegMsgHandler := fun s => log (EvSetup "RegMsgHandler") s;
  winc_NewIconFromResource := fun _ => None;
  winc_DefaultFont := 0;
  winc_ScaleWithDPI := scaleWithDPI;
  w32_SendMessage := fun h msg wparam lparam s =>
    log (EvSendMessage h msg wparam lparam) s;
  w32_SetFocus := fun h s => log (EvSetFocus h) s;
  w32_SetWindowPos := fun h after x y cx cy flags s =>
    log (EvSetWindowPos h after x y cx cy flags)
        (set_bounds (setWindowPos x y cx cy flags (bounds s)) s);
  w32_GetWindowRect := fun _ s => bounds s;
  w32_GetWindowLong := fun _ _ s => style (config s);
  w32_MonitorFromWindow := fun _ _ _ => 1;
  w32_GetMonitorInfo := fun _ s => monitorInfo (config s);
  w32_GetDPIForMonitor := fun _ _ s => dpi (config s);
  w32_GetSystemMetrics := fun index s => systemMetrics (config s) index;
  w32_ScreenToClient := fun _ x y s =>
    (x - fst (clientOrigin (config s)), y - snd (clientOrigin (config s)),
     screenToClient (config s));
  load_RECT := fun a s => lookup a (memory s);
  store_RECT := fun a r s => set_memory ((a, r) :: memory s) s
|}.

(** A 96-dpi monitor with 4-pixel frames and 4 pixels of padding, the
    client area at the screen origin, an unmaximized window whose default
    hit test answers [hit]. *)
Definition desktop (hit : uintptr) : Config :=
  mkConfig true (96, 96) 4 4 4 0 hit (0, 0) true 1000.

(** The same desktop when the monitor cannot be queried. *)
Definition without_monitor (c : Config) : Config :=
  mkConfig false (dpi c) (cxFrame c) (cyFrame c) (cxPaddedBorder c)
           (style c) (defaultHit c) (clientOrigin c) (screenToClient c)
           (newHandle c).

(** The same desktop with the window maximized. *)
Definition with_maximize (c : Config) : Config :=
  mkConfig (monitorInfo c) (dpi c) (cxFrame c) (cyFrame c)
           (cxPaddedBorder c) (Z.lor (style c) WS_MAXIMIZE) (defaultHit c)
           (clientOrigin c) (screenToClient c) (newHandle c).

(** The address that rectangle-carrying messages point to, and the
    rectangle found there when the platform starts. *)
Definition rect_address : uintptr := 4096.

Definition boot (c : Config) (r : RECT) : State :=
  mkState c 0 (0, 0) (0, 0) false (mkRECT 0 0 0 0) [(rect_address, r)] [].

(** [lparam] of a mouse message: y in the high word, x in the low word. *)
Definition MAKELPARAM (x y : Z) : uintptr := Z.lor (Z.shiftl y 16) x.

End Sim.

(** ** Vocabulary of the properties

    The quantities the handler computes, named so that the statements below
    can speak about them.  Each is the expression of [WndProc] itself. *)

(** The eight named resize edges and corners. *)
Definition resize_edges : list uintptr :=
  [HTRIGHT; HTLEFT; HTTOP; HTBOTTOM;
   HTTOPLEFT; HTTOPRIGHT; HTBOTTOMLEFT; HTBOTTOMRIGHT].

Definition is_resize_edge (hit : uintptr) : bool :=
  existsb (Z.eqb hit) resize_edges.

(** The hit regions of the data model. *)
Definition is_region (r : uintptr) : bool :=
  is_resize_edge r || (r =? HTNOWHERE) || (r =? HTCAPTION) || (r =? HTCLIENT).

(** The guard in front of both DPI-scaled computations. *)
Definition max_size_set (o : App) : bool :=
  (0 <? MaxWidth o) || (0 <? MaxHeight o).

Section Vocabulary.

Context {F : Type} `{Win32 F}.

Definition monitor_of (f : F) : HMONITOR :=
  w32_MonitorFromWindow (Form_Handle f) MONITOR_DEFAULTTONEAREST f.

Definition monitor_info_available (f : F) : bool :=
  w32_GetMonitorInfo (monitor_of f) f.

Definition monitor_dpi (f : F) : Z * Z :=
  w32_GetDPIForMonitor (monitor_of f) MDT_EFFECTIVE_DPI f.

Definition scaledFrameX (f : F) : Z :=
  winc_ScaleWithDPI (w32_GetSystemMetrics SM_CXFRAME f) (fst (monitor_dpi f)).

Definition scaledFrameY (f : F) : Z :=
  winc_ScaleWithDPI (w32_GetSystemMetrics SM_CYFRAME f) (snd (monitor_dpi f)).

Definition scaledPadding (f : F) : Z :=
  winc_ScaleWithDPI (w32_GetSystemMetrics 92 f) (fst (monitor_dpi f)).

(** The cursor position of a hit-test query in client coordinates, and
    whether the conversion succeeded. *)
Definition client_point (lparam : uintptr) (f : F) : Z * Z * bool :=
  w32_ScreenToClient (Form_Handle f)
    (LOWORD (GoInt.uint32 lparam)) (HIWORD (GoInt.uint32 lparam)) f.

Definition client_y (lparam : uintptr) (f : F) : Z :=
  snd (fst (client_point lparam f)).

Definition client_ok (lparam : uintptr) (f : F) : bool :=
  snd (client_point lparam f).

(** The window style as the frame calculation reads it. *)
Definition window_style (f : F) : Z :=
  GoInt.uint32 (w32_GetWindowLong (Form_Handle f) GWL_STYLE f).

Definition maximized (f : F) : bool :=
  negb (Z.land (window_style f) WS_MAXIMIZE =? 0).

(** The default classification of a hit-test query, and the toolkit state
    once it has been asked. *)
Definition default_hit (w : Window F) (wparam lparam : uintptr)
  : uintptr * F :=
  Form_WndProc WM_NCHITTEST wparam lparam (Form w).

End Vocabulary.

(** ** The scenario of the specification

    [Create({Width:800, Height:600, MinWidth:400, MinHeight:300,
    Frameless:true})], with a maximum size to choose, on a simulated
    desktop; rectangle-carrying messages point to [scenario_rect]. *)

Definition scenario_options (maxW maxH : Z) : App :=
  mkApp "" 800 600 400 300 maxW maxH false false true false None None.

Definition scenario_rect : RECT := mkRECT 100 100 1600 1200.

Definition scenario_window (c : Sim.Config) (maxW maxH : Z)
  : Window Sim.State :=
  NewWindow None (scenario_options maxW maxH) (Sim.boot c scenario_rect).

(** * The build command

    A shallow embedding of [v2/cmd/wails/internal/commands/build/build.go]:
    the action that [AddBuildSubcommand] registers, and the two go.mod
    helpers.  The host (operating system, Go runtime and standard library
    pieces that depend on Unicode tables, the [slicer], [gomod], [project]
    and [build] packages) is the class [Host]; what the command prints is
    kept as a trace of calls, latest first. *)

Module BuildCmd.

Local Open Scope string_scope.

(** ** The string functions of Go's [strings] package that the command
    uses on byte level *)

(** [strings.Split(s, sep)] for a separator of one byte. *)
Fixpoint Split (s : string) (sep : ascii) : list string :=
  match s with
  | EmptyString => [EmptyString]
  | String c s' =>
      if Ascii.eqb c sep then EmptyString :: Split s' sep
      else match Split s' sep with
           | x :: xs => String c x :: xs
           | [] => [String c EmptyString]
           end
  end.

(** [len(s) >= len(prefix) && s[0:len(prefix)] == prefix] *)
Definition HasPrefix (s prefix : string) : bool :=
  (String.length prefix <=? String.length s)%nat
  && (substring 0 (String.length prefix) s =? prefix).

(** [len(s) >= len(suffix) && s[len(s)-len(suffix):] == suffix] *)
Definition HasSuffix (s suffix : string) : bool :=
  (String.length suffix <=? String.length s)%nat
  && (substring (String.length s - String.length suffix)
                (String.length suffix) s =? suffix).

(** [strings.TrimSuffix] *)
Definition TrimSuffix (s suffix : string) : string :=
  if HasSuffix s suffix
  then substring 0 (String.length s - String.length suffix) s
  else s.

(** [strings.Repeat] *)
Fixpoint Repeat (s : string) (count : nat) : string :=
  match count with
  | O => ""
  | S n => s ++ Repeat s n
  end.

(** [strings.Join], also [slicer]'s [Join] *)
Definition Join (elems : list string) (sep : string) : string :=
  String.concat sep elems.

(** [slicer]'s [Contains]: some element equals [x]. *)
Definition Contains (l : list string) (x : string) : bool :=
  existsb (String.eqb x) l.

Definition tab : string := String (ascii_of_nat 9) "".
Definition nl : string := String (ascii_of_nat 10) "".
Definition dquote : string := String (ascii_of_nat 34) "".

(** ** Data *)

(** A Go [error], by its message. *)
Definition error : Type := string.

Definition Result (A : Type) : Type := (error + A)%type.

(** [build.Production] and [build.Debug] *)
Inductive Mode : Type := Production | Debug.

(** Modelled from the spec: [build.Options] (pkg/commands/build is not
    among the sources), with the fields that [build.go] sets and under the
    names it sets them by; the logger is the trace. *)
Record Options : Type := mkOptions {
  OutputType : string;
  OutputFile : string;
  CleanBuildDirectory : bool;
  Mode_ : Mode;               (* the field [Mode] *)
  Pack : bool;
  LDFlags : string;
  Compiler : string;
  SkipModTidy : bool;
  Verbosity : Z;
  ForceBuild : bool;
  IgnoreFrontend : bool;
  Compress : bool;
  CompressFlags : string;
  UserTags : list string;
  WebView2Strategy : string;
  Platform : string;
  Arch : string;
  BundleName : string
}.

(** Modelled from the spec: [project.Project] (internal/project is not
    among the sources), with the two fields the command reads. *)
Record Project : Type := mkProject {
  Name : string;
  OutputFilename : string
}.

(** The variables that the flags of the command are bound to. *)
Record Flags : Type := mkFlags {
  noPackage : bool;
  compilerCommand : string;
  skipModTidy : bool;
  compress : bool;
  compressFlags : string;
  platform : string;
  verbosity : Z;
  ldflags : string;
  tags : string;
  outputFilename : string;
  cleanBuildDirectory : bool;
  webview2 : string;
  skipFrontend : bool;
  forceBuild : bool;
  updateGoMod : bool;
  debug : bool
}.

Inductive Arg : Type :=
| AStr (s : string)
| ABool (b : bool).

(** What the command says and asks for, call by call. *)
Inductive Event : Type :=
| EvMute (quiet : bool)                       (* logger.Mute *)
| EvBanner                                    (* app.PrintBanner *)
| EvFprintf (format : string) (args : list Arg)  (* on the tabwriter *)
| EvFlush                                     (* of the tabwriter *)
| EvLog (message : string) (args : list string)  (* logger.Println *)
| EvGreen (message : string) (args : list string)  (* LogGreen *)
| EvBuild (o : Options) (r : Result string).  (* build.Build *)

(** ** The host *)

Class Host (W : Type) : Type := {
  GOOS : string;
  GOARCH : string;
  IsAppleSilicon : bool;                      (* system.IsAppleSilicon *)
  Version : string;                           (* internal.Version *)
  TrimSpace : string -> string;               (* strings.TrimSpace *)
  ToLower : string -> string;                 (* strings.ToLower *)
  Deduplicate : list string -> list string;   (* of the slicer *)
  LookPath : string -> W -> Result string;    (* exec.LookPath *)
  Getwd : W -> Result string;                 (* os.Getwd *)
  ReadFile : string -> W -> Result string;    (* os.ReadFile *)
  WriteFile : string -> string -> Z -> W -> option error * W;
  filepath_Join : string -> string -> string;
  GoModOutOfSync : string -> string -> Result bool;
  GetWailsVersionFromModFile : string -> Result string;
  UpdateGoModVersion : string -> string -> Result string;
  (* project.Load: the project, nil as [None]; its error is dropped *)
  project_Load : string -> W -> option Project;
  (* build.Build gets a pointer to the options: the result, the options
     as it leaves them and the world after it *)
  build_Build : Options -> W -> Result string * Options * W;
  (* time.Since(start).Round(time.Millisecond).String(), from the world
     at [start] and the world now *)
  Since : W -> W -> string
}.

Section Command.

Context {W : Type} `{Host W}.

(** ** The go.mod helpers *)

(** [func syncGoModVersion(cwd string) error] *)
Definition syncGoModVersion (cwd : string) (w : W) (out : list Event)
  : option error * W * list Event :=
  let gomodFilename := filepath_Join cwd "go.mod" in
  match ReadFile gomodFilename w with
  | inl err => (Some err, w, out)
  | inr gomodData =>
      match GoModOutOfSync gomodData Version with
      | inl err => (Some err, w, out)
      | inr outOfSync =>
          if negb outOfSync then (None, w, out)
          else
            let out :=
              EvGreen "Updating go.mod to use Wails '%s'" [Version] :: out in
            match UpdateGoModVersion gomodData Version with
            | inl err => (Some err, w, out)
            | inr newGoData =>
                let '(err, w) := WriteFile gomodFilename newGoData 493 (* 0755 *) w in
                (err, w, out)
            end
      end
  end.

(** [func checkGoModVersion(logger *clilogger.CLILogger, updateGoMod bool)
    error] *)
Definition checkGoModVersion (updateGoMod : bool) (w : W) (out : list Event)
  : option error * W * list Event :=
  match Getwd w with
  | inl err => (Some err, w, out)
  | inr cwd =>
      let gomodFilename := filepath_Join cwd "go.mod" in
      match ReadFile gomodFilename w with
      | inl err => (Some err, w, out)
      | inr gomodData =>
          match GoModOutOfSync gomodData Version with
          | inl err => (Some err, w, out)
          | inr outOfSync =>
              if negb outOfSync then (None, w, out)
              else
                match GetWailsVersionFromModFile gomodData with
                | inl err => (Some err, w, out)
                | inr gomodversion =>
                    if updateGoMod then syncGoModVersion cwd w out
                    else
                      (None, w,
                       EvLog ("Warning: go.mod is using Wails '%s' but the CLI is '%s'. Consider updating your project's `go.mod` file." ++ nl)
                             [gomodversion; Version] :: out)
                end
          end
      end
  end.

(** ** The action of the command *)

(** The loop over [strings.Split(tags, " ")]. *)
Definition tag_step (acc : list string * bool) (tag : string)
  : list string * bool :=
  let '(userTags, experimental) := acc in
  let thisTag := TrimSpace tag in
  let userTags :=
    if negb (thisTag =? "") then (userTags ++ [thisTag])%list
    else userTags in
  let experimental := if thisTag =? "exp" then true else experimental in
  (userTags, experimental).

Definition parseTags (tags : string) : list string * bool :=
  fold_left tag_step (Split tags " "%char) ([], false).

Definition validWV2Runtime : list string :=
  ["download"; "embed"; "browser"; "error"].

(** The WebView2 installer strategy: the build tag, or the error of the
    action. *)
Definition webview2Strategy (webview2 : string) : Result string :=
  let wv2rtstrategy := "" in
  let webview2 := ToLower webview2 in
  if negb (webview2 =? "") then
    if negb (Contains validWV2Runtime webview2) then
      inl ("invalid option for flag 'webview2': " ++ webview2)
    else if webview2 =? "embed" then inr "wv2runtime.embed"
    else if webview2 =? "error" then inr "wv2runtime.error"
    else if webview2 =? "browser" then inr "wv2runtime.browser"
    else inr wv2rtstrategy
  else inr wv2rtstrategy.

Definition validTargetTypes : list string := ["desktop"; "hybrid"; "server"].

Definition outputType : string := "desktop".

Definition validPlatformArch : list string :=
  ["darwin"; "darwin/amd64"; "darwin/arm64"; "darwin/universal";
   "linux"; "linux/amd64"; "linux/arm64";
   "windows"; "windows/amd64"; "windows/arm64"].

(** What the closure over the targets shares between its runs: the world,
    the build options behind the pointer, the variable [compress], and the
    trace. *)
Record Run : Type := mkRun {
  world : W;
  buildOptions : Options;
  compress' : bool;
  said : list Event
}.

Definition say (e : Event) (r : Run) : Run :=
  mkRun (world r) (buildOptions r) (compress' r) (e :: said r).

Definition with_options (o : Options) (r : Run) : Run :=
  mkRun (world r) o (compress' r) (said r).

Definition set_Platform (v : string) (o : Options) : Options :=
  mkOptions (OutputType o) (OutputFile o) (CleanBuildDirectory o) (Mode_ o)
            (Pack o) (LDFlags o) (Compiler o) (SkipModTidy o) (Verbosity o)
            (ForceBuild o) (IgnoreFrontend o) (Compress o) (CompressFlags o)
            (UserTags o) (WebView2Strategy o) v (Arch o) (BundleName o).

Definition set_Arch (v : string) (o : Options) : Options :=
  mkOptions (OutputType o) (OutputFile o) (CleanBuildDirectory o) (Mode_ o)
            (Pack o) (LDFlags o) (Compiler o) (SkipModTidy o) (Verbosity o)
            (ForceBuild o) (IgnoreFrontend o) (Compress o) (CompressFlags o)
            (UserTags o) (WebView2Strategy o) (Platform o) v (BundleName o).

Definition set_BundleName (v : string) (o : Options) : Options :=
  mkOptions (OutputType o) (OutputFile o) (CleanBuildDirectory o) (Mode_ o)
            (Pack o) (LDFlags o) (Compiler o) (SkipModTidy o) (Verbosity o)
            (ForceBuild o) (IgnoreFrontend o) (Compress o) (CompressFlags o)
            (UserTags o) (WebView2Strategy o) (Platform o) (Arch o) v.

Definition set_OutputFile (v : string) (o : Options) : Options :=
  mkOptions (OutputType o) v (CleanBuildDirectory o) (Mode_ o)
            (Pack o) (LDFlags o) (Compiler o) (SkipModTidy o) (Verbosity o)
            (ForceBuild o) (IgnoreFrontend o) (Compress o) (CompressFlags o)
            (UserTags o) (WebView2Strategy o) (Platform o) (Arch o)
            (BundleName o).

Definition set_IgnoreFrontend (v : bool) (o : Options) : Options :=
  mkOptions (OutputType o) (OutputFile o) (CleanBuildDirectory o) (Mode_ o)
            (Pack o) (LDFlags o) (Compiler o) (SkipModTidy o) (Verbosity o)
            (ForceBuild o) v (Compress o) (CompressFlags o)
            (UserTags o) (WebView2Strategy o) (Platform o) (Arch o)
            (BundleName o).

Definition set_CleanBuildDirectory (v : bool) (o : Options) : Options :=
  mkOptions (OutputType o) (OutputFile o) v (Mode_ o)
            (Pack o) (LDFlags o) (Compiler o) (SkipModTidy o) (Verbosity o)
            (ForceBuild o) (IgnoreFrontend o) (Compress o) (CompressFlags o)
            (UserTags o) (WebView2Strategy o) (Platform o) (Arch o)
            (BundleName o).

(** How one run of the closure gets to [build.Build]: not at all because
    [projectOptions] is nil and gets dereferenced, not at all because the
    target is skipped, or with the options made ready. *)
Inductive Prepared : Type :=
| Panic
| Skip (r : Run)
| Ready (r : Run).

(** The name of the binary once platform and architecture are known: the
    two [switch]es and the [if] before [buildOptions.OutputFile =
    desiredFilename]. *)
Definition targetFilename (desiredFilename : string) (ntargets : nat)
           (o : Options) : string :=
  let desiredFilename :=
    if (1 <? ntargets)%nat then
      if Platform o =? "windows" then
        desiredFilename ++ "-" ++ Arch o
      else if (Platform o =? "linux") || (Platform o =? "darwin") then
        desiredFilename ++ "-" ++ Platform o ++ "-" ++ Arch o
      else desiredFilename
    else desiredFilename in
  if Platform o =? "windows" then desiredFilename ++ ".exe"
  else desiredFilename.

(** The closure given to [targets.Each], up to the call of [build.Build]. *)
Definition prepareTarget (targets : list string)
           (projectOptions : option Project) (r : Run) (platform : string)
  : Prepared :=
  if negb (Contains validPlatformArch platform) then
    Skip (say (EvLog "platform '%s' is not supported - skipping. Supported platforms: %s"
                     [platform; Join validPlatformArch ","]) r)
  else
    match projectOptions with
    | None => Panic
    | Some projectOptions =>
        let desiredFilename := OutputFilename projectOptions in
        let desiredFilename :=
          if desiredFilename =? "" then Name projectOptions
          else desiredFilename in
        let desiredFilename := TrimSuffix desiredFilename ".exe" in
        let platformSplit := Split platform "/"%char in
        let o := set_Platform (hd "" platformSplit) (buildOptions r) in
        let o := if IsAppleSilicon then set_Arch "arm64" o
                 else set_Arch GOARCH o in
        let o := if (List.length platformSplit =? 2)%nat
                 then set_Arch (nth 1 platformSplit "") o else o in
        let r := with_options o r in
        let banner := "Building target: " ++ platform in
        let r := say (EvLog banner []) r in
        let r := say (EvLog (Repeat "-" (String.length banner)) []) r in
        let r :=
          if compress' r && (platform =? "darwin/universal") then
            let r := say (EvLog "Warning: compress flag unsupported for universal binaries. Ignoring." []) r in
            mkRun (world r) (buildOptions r) false (said r)
          else r in
        if (Platform o =? "linux") && negb (GOOS =? "linux") then
          Skip (say (EvLog ("Crosscompiling to Linux not currently supported." ++ nl) []) r)
        else if (Platform o =? "darwin") && negb (GOOS =? "darwin") then
          Skip (say (EvLog ("Crosscompiling to Mac not currently supported." ++ nl) []) r)
        else
          let o :=
            if Platform o =? "darwin" then
              let macTargets :=
                filter (fun platform => HasPrefix platform "darwin")
                       targets in
              if (List.length macTargets =? 2)%nat
              then set_BundleName (desiredFilename ++ "-" ++ Arch o ++ ".app") o
              else o
            else o in
          let desiredFilename :=
            targetFilename desiredFilename (List.length targets) o in
          Ready (with_options (set_OutputFile desiredFilename o) r)
    end.

(** The closure given to [targets.Each]; [None] is the panic. *)
Definition buildTarget (targets : list string)
           (projectOptions : option Project) (r : Run) (platform : string)
  : option Run :=
  match prepareTarget targets projectOptions r platform with
  | Panic => None
  | Skip r => Some r
  | Ready r =>
      let start := world r in
      let '(res, o, w) := build_Build (buildOptions r) (world r) in
      let seen := EvBuild (buildOptions r) res :: said r in
      match res with
      | inl err =>
          Some (mkRun w o (compress' r) (EvLog "Error: " [err] :: seen))
      | inr outputFilename =>
          let o := set_IgnoreFrontend true o in
          let o := set_CleanBuildDirectory false o in
          Some (mkRun w o (compress' r)
                  (EvLog ("Built '" ++ outputFilename ++ "' in "
                          ++ Since start w ++ "." ++ nl) [] :: seen))
      end
  end.

(** [targets.Each]: the closure on every target in order, [rest] being
    the targets still to come.  [inl] is a panic, with the run as it stood;
    [inr] is the run after the last target. *)
Fixpoint Each (targets rest : list string)
         (projectOptions : option Project) (r : Run) : Run + Run :=
  match rest with
  | [] => inr r
  | platform :: rest =>
      match buildTarget targets projectOptions r platform with
      | None => inl r
      | Some r => Each targets rest projectOptions r
      end
  end.

(** How the action ends: with a return value, nil as [None], or with a
    panic. *)
Inductive Outcome : Type :=
| Returned (err : option error)
| Panicked.

(** The lines on the tabwriter. *)
Definition systemInformation (o : Options) (f : Flags)
           (compilerPath modeString : string) (ntargets : nat)
  : list Event :=
  let lines :=
    ([EvFprintf ("App Type: " ++ tab ++ "%s" ++ nl) [AStr (OutputType o)];
     EvFprintf ("Platforms: " ++ tab ++ "%s" ++ nl) [AStr (platform f)];
     EvFprintf ("Compiler: " ++ tab ++ "%s" ++ nl) [AStr compilerPath];
     EvFprintf ("Build Mode: " ++ tab ++ "%s" ++ nl) [AStr modeString];
     EvFprintf ("Skip Frontend: " ++ tab ++ "%t" ++ nl)
               [ABool (skipFrontend f)];
     EvFprintf ("Compress: " ++ tab ++ "%t" ++ nl) [ABool (Compress o)];
     EvFprintf ("Package: " ++ tab ++ "%t" ++ nl) [ABool (Pack o)];
     EvFprintf ("Clean Build Dir: " ++ tab ++ "%t" ++ nl)
               [ABool (CleanBuildDirectory o)];
     EvFprintf ("LDFlags: " ++ tab ++ dquote ++ "%s" ++ dquote ++ nl)
               [AStr (LDFlags o)];
     EvFprintf ("Tags: " ++ tab ++ "[%s]" ++ nl)
               [AStr (Join (UserTags o) ",")]]
    ++ (if (0 <? String.length (OutputFile o))%nat
           && (ntargets =? 1)%nat
        then [EvFprintf ("Output File: " ++ tab ++ "%s" ++ nl)
                        [AStr (OutputFile o)]]
        else [])
    ++ [EvFprintf nl []; EvFlush])%list in
  rev lines.

(** The function given to [command.Action]. *)
Definition Action (f : Flags) (w : W) : Outcome * W * list Event :=
  let quiet := (verbosity f =? 0)%Z in
  let out := [EvMute quiet] in
  if negb (Contains validTargetTypes outputType) then
    (Returned (Some ("output type '" ++ outputType ++ "' is not valid")),
     w, out)
  else
    let out := if negb quiet then EvBanner :: out else out in
    match LookPath (compilerCommand f) w with
    | inl _ =>
        (Returned (Some ("unable to find compiler: " ++ compilerCommand f)),
         w, out)
    | inr compilerPath =>
        let '(userTags, experimental) := parseTags (tags f) in
        if (GOOS =? "linux") && negb experimental then
          (Returned (Some "Linux version coming soon!"), w, out)
        else
          match webview2Strategy (webview2 f) with
          | inl err => (Returned (Some err), w, out)
          | inr wv2rtstrategy =>
              let mode := if debug f then Debug else Production in
              let modeString := if debug f then "Debug" else "Production" in
              let targets := Deduplicate (Split (platform f) ","%char) in
              let buildOptions :=
                mkOptions outputType (outputFilename f)
                          (cleanBuildDirectory f) mode (negb (noPackage f))
                          (ldflags f) (compilerCommand f) (skipModTidy f)
                          (verbosity f) (forceBuild f) (skipFrontend f)
                          (compress f) (compressFlags f) userTags
                          wv2rtstrategy "" "" "" in
              let out :=
                (systemInformation buildOptions f compilerPath modeString
                                   (List.length targets) ++ out)%list in
              match checkGoModVersion (updateGoMod f) w out with
              | (Some err, w, out) => (Returned (Some err), w, out)
              | (None, w, out) =>
                  match Getwd w with
                  | inl err => (Returned (Some err), w, out)
                  | inr cwd =>
                      let projectOptions := project_Load cwd w in
                      match Each targets targets projectOptions
                                 (mkRun w buildOptions (compress f) out) with
                      | inl r => (Panicked, world r, said r)
                      | inr r => (Returned None, world r, said r)
                      end
                  end
              end
          end
    end.

End Command.

End BuildCmd.

(** ** An executable host for the build command

    A test double: a world of files, a search path, a project and the
    platforms whose build fails; ASCII versions of the Unicode-aware string
    functions; a go.mod that consists of the version it asks for. *)

Module BuildSim.

Import BuildCmd.

Local Open Scope string_scope.

Record World : Type := mkWorld {
  files : list (string * string);
  cwd : Result string;
  path : list string;                 (* the commands LookPath finds *)
  project : option Project;
  failing : list string;              (* platforms whose build fails *)
  built : list string                 (* binaries built, latest first *)
}.

Fixpoint read (name : string) (fs : list (string * string)) : Result string :=
  match fs with
  | [] => inl ("open " ++ name ++ ": no such file")
  | (n, data) :: fs' => if n =? name then inr data else read name fs'
  end.

Definition is_blank (c : ascii) : bool :=
  Ascii.eqb c " " || Ascii.eqb c (ascii_of_nat 9)
  || Ascii.eqb c (ascii_of_nat 10) || Ascii.eqb c (ascii_of_nat 13).

Fixpoint trim_left (s : string) : string :=
  match s with
  | String c s' => if is_blank c then trim_left s' else s
  | EmptyString => EmptyString
  end.

Fixpoint trim_right (s : string) : string :=
  match s with
  | String c s' =>
      match trim_right s' with
      | EmptyString => if is_blank c then EmptyString
                       else String c EmptyString
      | t => String c t
      end
  | EmptyString => EmptyString
  end.

Definition lower (c : ascii) : ascii :=
  let n := nat_of_ascii c in
  if (65 <=? n)%nat && (n <=? 90)%nat then ascii_of_nat (n + 32) else c.

Fixpoint map_string (f : ascii -> ascii) (s : string) : string :=
  match s with
  | String c s' => String (f c) (map_string f s')
  | EmptyString => EmptyString
  end.

(** keeps the first of equal elements *)
Fixpoint dedup (seen l : list string) : list string :=
  match l with
  | [] => []
  | x :: l' => if Contains seen x then dedup seen l'
               else x :: dedup (x :: seen) l'
  end.

Definition host (goos goarch : string) (silicon : bool) : Host World := {|
  GOOS := goos;
  GOARCH := goarch;
  IsAppleSilicon := silicon;
  Version := "v2.0.0";
  TrimSpace := fun s => trim_right (trim_left s);
  ToLower := map_string lower;
  Deduplicate := dedup [];
  LookPath := fun file w =>
    if Contains (path w) file then inr ("/usr/bin/" ++ file)
    else inl ("executable file not found in $PATH");
  Getwd := cwd;
  ReadFile := fun name w => read name (files w);
  WriteFile := fun name data _ w =>
    (None, mkWorld ((name, data) :: files w) (cwd w) (path w) (project w)
                   (failing w) (built w));
  filepath_Join := fun dir name => dir ++ "/" ++ name;
  GoModOutOfSync := fun data version => inr (negb (data =? version));
  GetWailsVersionFromModFile := fun data => inr data;
  UpdateGoModVersion := fun _ version => inr version;
  project_Load := fun _ w => project w;
  build_Build := fun o w =>
    if Contains (failing w) (Platform o)
    then (inl ("build failed for " ++ Platform o), o, w)
    else (inr ("build/bin/" ++ OutputFile o), o,
          mkWorld (files w) (cwd w) (path w) (project w) (failing w)
                  (OutputFile o :: built w));
  Since := fun _ _ => "1s"
|}.

(** A project directory with an up-to-date go.mod and [go] on the path. *)
Definition workspace (p : option Project) (failing : list string) : World :=
  mkWorld [("/work/go.mod", "v2.0.0")] (inr "/work") ["go"] p failing [].

Definition flags (platform tags output : string) : Flags :=
  mkFlags false "go" false false "" platform 1 "" tags output false
          "download" false false false false.


Definition demo (output : string) : Project := mkProject "demo" output.

(** Build options as the action makes them from [flags], and the run the
    loop over the targets starts with. *)
Definition options (compress : bool) : Options :=
  mkOptions "desktop" "" false Production true "" "go" false 1 false false
            compress "" [] "" "" "" "".

Definition start (w : World) (compress : bool) : Run (W := World) :=
  mkRun w (options compress) compress [].

End BuildSim.

(** ** Vocabulary of the build command's properties *)

Module BuildVocabulary.

Import BuildCmd.

(** The options of the [build.Build] calls in a trace, latest first. *)
Fixpoint builds (t : list Event) : list Options :=
  match t with
  | [] => []
  | EvBuild o _ :: t' => o :: builds t'
  | _ :: t' => builds t'
  end.

(** Has some [build.Build] of the trace succeeded. *)
Fixpoint has_success (t : list Event) : bool :=
  match t with
  | [] => false
  | EvBuild _ (inr _) :: _ => true
  | _ :: t' => has_success t'
  end.

(** Every [build.Build] that came after a successful one was told to leave
    the frontend and the build directory alone. *)
Fixpoint frontend_built_once (t : list Event) : bool :=
  match t with
  | [] => true
  | EvBuild o _ :: t' =>
      (if has_success t'
       then IgnoreFrontend o && negb (CleanBuildDirectory o) else true)
      && frontend_built_once t'
  | _ :: t' => frontend_built_once t'
  end.

(** Two option records that agree on everything a target does not set. *)
Definition same_but_target (o o' : Options) : Prop :=
  OutputType o' = OutputType o /\
  CleanBuildDirectory o' = CleanBuildDirectory o /\
  Mode_ o' = Mode_ o /\
  Pack o' = Pack o /\
  LDFlags o' = LDFlags o /\
  Compiler o' = Compiler o /\
  SkipModTidy o' = SkipModTidy o /\
  Verbosity o' = Verbosity o /\
  ForceBuild o' = ForceBuild o /\
  IgnoreFrontend o' = IgnoreFrontend o /\
  Compress o' = Compress o /\
  CompressFlags o' = CompressFlags o /\
  UserTags o' = UserTags o /\
  WebView2Strategy o' = WebView2Strategy o.

(** The name the project asks for: [OutputFilename], or [Name] when that
    is empty. *)
Definition wanted_name (p : Project) : string :=
  if (OutputFilename p =? "")%string then Name p else OutputFilename p.

Section Forget.

Context {W : Type} `{Host W}.

(** The architecture a target gets when it names none. *)
Definition default_arch : string :=
  if IsAppleSilicon then "arm64"%string else GOARCH.

(** The run that [Each] ends with, panic or not. *)
Definition last_run (x : Run (W := W) + Run (W := W)) : Run (W := W) :=
  match x with inl r => r | inr r => r end.

(** A run with the output file of its options blanked. *)
Definition forget_OutputFile (r : Run (W := W)) : Run (W := W) :=
  with_options (set_OutputFile EmptyString (buildOptions r)) r.

(** Two runs that are the same but for the output file of their
    options. *)
Definition differ_in_OutputFile (r r2 : Run (W := W)) : Prop :=
  exists x : string, r2 = with_options (set_OutputFile x (buildOptions r)) r.

Definition forget_both (x : Run (W := W) + Run (W := W))
  : Run (W := W) + Run (W := W) :=
  match x with
  | inl r => inl (forget_OutputFile r)
  | inr r => inr (forget_OutputFile r)
  end.

End Forget.

End BuildVocabulary.

(** ** The cursor of a hit-test query

    [lparam] of a mouse message carries the screen position of the cursor
    as two signed 16-bit words ([GET_X_LPARAM] and [GET_Y_LPARAM] of
    windowsx.h): on a monitor to the left of or above the primary one they
    are negative.  These are the cursor's coordinates; [client_point]
    above is what the handler makes of them. *)

Definition int16 (z : Z) : Z := GoInt.wrap 16 z.

Definition cursor_screen_x (lparam : uintptr) : Z :=
  int16 (LOWORD (GoInt.uint32 lparam)).

Definition cursor_screen_y (lparam : uintptr) : Z :=
  int16 (HIWORD (GoInt.uint32 lparam)).

Section CursorVocabulary.

Context {F : Type} `{Win32 F}.

(** The cursor in client coordinates, and whether the conversion
    succeeded. *)
Definition cursor_client_point (lparam : uintptr) (f : F) : Z * Z * bool :=
  w32_ScreenToClient (Form_Handle f)
    (cursor_screen_x lparam) (cursor_screen_y lparam) f.



End CursorVocabulary.

(** The simulated desktop with the window on a monitor above the primary
    one: the client area starts at screen row -7. *)
Definition desktop_above_primary (hit : uintptr) : Sim.Config :=
  Sim.mkConfig true (96, 96) 4 4 4 0 hit (0, -7) true 1000.

(** The three platform names among the supported targets. *)
Definition platform_names : list string :=
  ["darwin"%string; "linux"%string; "windows"%string].

(** ** Vocabulary of the message dispatch and of call sequences *)

(** The messages [WndProc] has a case for: the three notifications and the
    DPI change on every window, and on a frameless window the creation,
    the hit test and the frame calculation that carries rectangle data. *)
Definition handled_message (o : App) (msg : Z) (wparam : uintptr) : bool :=
  (msg =? WM_NCLBUTTONDOWN) || (msg =? WM_MOVE) || (msg =? WM_MOVING)
  || (msg =? WM_DPICHANGED)
  || (Frameless o
      && ((msg =? WM_CREATE) || (msg =? WM_NCHITTEST)
          || ((msg =? WM_NCCALCSIZE) && negb (wparam =? 0)))).

Section CallVocabulary.

Context {F : Type} `{Win32 F}.

Definition is_min_call (c : Call) : bool :=
  match c with CallSetMinSize _ _ => true | _ => false end.

Definition is_max_call (c : Call) : bool :=
  match c with CallSetMaxSize _ _ => true | _ => false end.

Definition stored_min (w : Window F) : Z * Z := (minWidth w, minHeight w).

Definition stored_max (w : Window F) : Z * Z := (maxWidth w, maxHeight w).

End CallVocabulary.

(** Takes every [if] of the goal apart. *)
Ltac split_ifs :=
  repeat match goal with
         | |- context [if ?c then _ else _] => destruct c eqn:?
         end.

(** Walks down a chain of [if hit =? c then ... else ...]. *)
Ltac case_hit :=
  repeat match goal with
         | |- context [if ?a =? ?b then _ else _] =>
             destruct (Z.eqb_spec a b); subst; try reflexivity
         end.

(** * Properties *)

Import GoInt.

(** ** Wrap-around arithmetic *)

Module GoIntFacts.

Lemma wrap_small bits z : 0 < bits -> in_range bits z -> wrap bits z = z.
Proof.
  unfold wrap, in_range. intros Hb Hz.
  assert (E : 2 ^ bits = 2 * 2 ^ (bits - 1)).
  { replace bits with (Z.succ (bits - 1)) at 1 by lia.
    rewrite Z.pow_succ_r by lia. reflexivity. }
  rewrite Z.mod_small by lia. lia.
Qed.

Lemma wrap_in_range bits z : 0 < bits -> in_range bits (wrap bits z).
Proof.
  unfold wrap, in_range. intros Hb.
  assert (E : 2 ^ bits = 2 * 2 ^ (bits - 1)).
  { replace bits with (Z.succ (bits - 1)) at 1 by lia.
    rewrite Z.pow_succ_r by lia. reflexivity. }
  assert (P : 0 < 2 ^ (bits - 1)) by (apply Z.pow_pos_nonneg; lia).
  pose proof (Z.mod_pos_bound (z + 2 ^ (bits - 1)) (2 ^ bits)) as B.
  lia.
Qed.

Lemma int32_small z : in_range 32 z -> int32 z = z.
Proof. apply wrap_small; lia. Qed.

Lemma int_small z : in_range 64 z -> int z = z.
Proof. apply wrap_small; lia. Qed.

Lemma in_range_32_64 z : in_range 32 z -> in_range 64 z.
Proof. unfold in_range. simpl. lia. Qed.

End GoIntFacts.

(** ** The stored size constraints *)

Section Constraints.

Context {F : Type} `{Win32 F}.

Implicit Types (w : Window F) (c : Call) (cs : list Call).

Lemma constraints_with_Form w f :
  constraints (with_Form w f) = constraints w.
Proof. reflexivity. Qed.

Lemma frontendOptions_with_Form w f :
  frontendOptions (with_Form w f) = frontendOptions w.
Proof. reflexivity. Qed.

Lemma constraints_SetMinSize w a b :
  constraints (SetMinSize w a b) = (a, b, maxWidth w, maxHeight w).
Proof. reflexivity. Qed.

Lemma constraints_SetMaxSize w a b :
  constraints (SetMaxSize w a b) = (minWidth w, minHeight w, a, b).
Proof. reflexivity. Qed.

Lemma constraints_Fullscreen w :
  constraints (Fullscreen w) = constraints w.
Proof. reflexivity. Qed.

Lemma constraints_UnFullscreen w :
  constraints (UnFullscreen w) = constraints w.
Proof.
  unfold UnFullscreen.
  destruct (Form_IsFullScreen (Form w)); reflexivity.
Qed.

Lemma snd_WndProc_default w msg wparam lparam f :
  exists f', snd (WndProc_default w msg wparam lparam f) = with_Form w f'.
Proof.
  unfold WndProc_default.
  destruct (Form_WndProc msg wparam lparam f) as [r f'].
  exists f'. reflexivity.
Qed.

(** The handler only ever replaces the embedded form. *)
Lemma snd_WndProc w msg wparam lparam :
  exists f', snd (WndProc w msg wparam lparam) = with_Form w f'.
Proof.
  unfold WndProc.
  destruct (Frameless (frontendOptions w));
    [| apply snd_WndProc_default].
  destruct (msg =? WM_CREATE); [apply snd_WndProc_default|].
  destruct (msg =? WM_NCHITTEST).
  { unfold WndProc_NCHITTEST.
    destruct (Form_WndProc msg wparam lparam _) as [hit f'].
    exists f'. destruct (hit_switch hit); reflexivity. }
  destruct (msg =? WM_NCCALCSIZE); [| apply snd_WndProc_default].
  destruct (negb (wparam =? 0)); [| apply snd_WndProc_default].
  unfold WndProc_NCCALCSIZE.
  destruct (w32_GetMonitorInfo _ _); [| eexists; reflexivity].
  destruct (_ || _); [| eexists; reflexivity].
  destruct (w32_GetDPIForMonitor _ _ _). eexists; reflexivity.
Qed.

Lemma constraints_WndProc w msg wparam lparam :
  constraints (snd (WndProc w msg wparam lparam)) = constraints w.
Proof.
  destruct (snd_WndProc w msg wparam lparam) as [f' ->]. reflexivity.
Qed.

Lemma frontendOptions_WndProc w msg wparam lparam :
  frontendOptions (snd (WndProc w msg wparam lparam)) = frontendOptions w.
Proof.
  destruct (snd_WndProc w msg wparam lparam) as [f' ->]. reflexivity.
Qed.

Lemma constraints_call w c :
  constraints (call w c) = constraints_after w c.
Proof.
  destruct c; simpl.
  - reflexivity.
  - reflexivity.
  - apply constraints_Fullscreen.
  - apply constraints_UnFullscreen.
  - apply constraints_WndProc.
Qed.

(** A run of calls without a size call keeps the stored constraints. *)
Lemma constraints_calls_preserved cs : forall w,
  forallb (fun c => negb (is_size_call c)) cs = true ->
  constraints (calls w cs) = constraints w.
Proof.
  unfold calls.
  induction cs as [|c cs IH]; intros w Hcs; simpl in *.
  - reflexivity.
  - apply andb_true_iff in Hcs as [Hc Hcs].
    rewrite IH by exact Hcs.
    rewrite constraints_call.
    destruct c; simpl in Hc; try discriminate; reflexivity.
Qed.

(** After a full-screen round trip of a window that the toolkit reports as
    full-screen, the stored constraints have been handed to the toolkit
    again, in the order min, max. *)
Lemma Form_UnFullscreen_reapplies w :
  Form_IsFullScreen (Form w) = true ->
  Form (UnFullscreen w) =
  Form_SetMaxSize (maxWidth w) (maxHeight w)
    (Form_SetMinSize (minWidth w) (minHeight w)
       (Form_UnFullscreen (Form w))).
Proof.
  intros E. unfold UnFullscreen. rewrite E. reflexivity.
Qed.

Lemma constraints_NewWindow parent o sys :
  constraints (NewWindow parent o sys) =
  (MinWidth o, MinHeight o, MaxWidth o, MaxHeight o).
Proof.
  unfold NewWindow.
  destruct (winc_CreateWindow _ _ _ _ _) as [h f].
  destruct (Fullscreen_ o), (Menu o); reflexivity.
Qed.

Lemma frontendOptions_NewWindow parent o sys :
  frontendOptions (NewWindow parent o sys) = o.
Proof.
  unfold NewWindow.
  destruct (winc_CreateWindow _ _ _ _ _) as [h f].
  destruct (Fullscreen_ o), (Menu o); reflexivity.
Qed.

End Constraints.

(** ** The hit-test classifier *)

Section HitTest.

Context {F : Type} `{Win32 F}.

Implicit Types (w : Window F) (f : F) (o : App).

(** On a frameless window a hit-test query goes to the hit-test case with
    the form untouched. *)
Lemma WndProc_hit_test w wparam lparam :
  Frameless (frontendOptions w) = true ->
  WndProc w WM_NCHITTEST wparam lparam =
  WndProc_NCHITTEST w WM_NCHITTEST wparam lparam (Form w).
Proof.
  intros Hf. unfold WndProc, WndProc_notifications. rewrite Hf.
  reflexivity.
Qed.

(** The correction in one piece: top edge exactly when every guard is passed
    and the cursor is strictly below row 0 and above the scaled margin. *)
Lemma top_edge_correction_spec o lparam f :
  top_edge_correction o lparam f =
  if monitor_info_available f && max_size_set o && client_ok lparam f
     && (0 <? client_y lparam f)
     && (client_y lparam f <? add (scaledFrameY f) (scaledPadding f))
  then HTTOP else HTCLIENT.
Proof.
  unfold top_edge_correction, monitor_info_available, max_size_set,
    client_ok, client_y, client_point, scaledFrameY, scaledPadding,
    monitor_dpi, monitor_of.
  destruct (w32_GetMonitorInfo _ _); [|reflexivity].
  destruct ((0 <? MaxWidth o) || (0 <? MaxHeight o)); [|reflexivity].
  destruct (w32_GetDPIForMonitor _ _ _) as [dpiX dpiY].
  destruct (w32_ScreenToClient _ _ _ _) as [[x y] ok].
  destruct ok; simpl; [|reflexivity].
  destruct (0 <? y); simpl; reflexivity.
Qed.

Lemma top_edge_correction_range o lparam f :
  top_edge_correction o lparam f = HTTOP \/
  top_edge_correction o lparam f = HTCLIENT.
Proof.
  rewrite top_edge_correction_spec.
  destruct (_ && _); [left | right]; reflexivity.
Qed.

(** What the classifier answers, by the default classification. *)
Lemma hit_test_result w wparam lparam :
  Frameless (frontendOptions w) = true ->
  fst (WndProc w WM_NCHITTEST wparam lparam) =
  let '(hit, f) := default_hit w wparam lparam in
  if hit =? HTBOTTOMLEFT then hit
  else top_edge_correction (frontendOptions w) lparam f.
Proof.
  intros Hf. rewrite WndProc_hit_test by exact Hf.
  unfold WndProc_NCHITTEST, default_hit.
  destruct (Form_WndProc _ _ _ _) as [hit f].
  unfold hit_switch.
  case_hit.
Qed.

(** Only the bottom-left corner comes back from the [switch hit]. *)
Lemma hit_switch_spec hit :
  hit_switch hit = if hit =? HTBOTTOMLEFT then Some hit else None.
Proof.
  unfold hit_switch.
  case_hit.
Qed.

(** Every other named edge or corner is classified by the top-edge
    correction, as top edge or as client area. *)
Lemma named_edge_overridden w wparam lparam :
  Frameless (frontendOptions w) = true ->
  is_resize_edge (fst (default_hit w wparam lparam)) = true ->
  fst (default_hit w wparam lparam) <> HTBOTTOMLEFT ->
  fst (WndProc w WM_NCHITTEST wparam lparam) = HTTOP \/
  fst (WndProc w WM_NCHITTEST wparam lparam) = HTCLIENT.
Proof.
  intros Hf _ Hne. rewrite hit_test_result by exact Hf.
  destruct (default_hit w wparam lparam) as [hit f]. simpl in Hne.
  destruct (Z.eqb_spec hit HTBOTTOMLEFT); [contradiction|].
  apply top_edge_correction_range.
Qed.

(** Row 0 of the client area is never the top edge: the test is
    [cursorY > 0]. *)
Lemma row_zero_is_client o lparam f :
  client_y lparam f = 0 ->
  top_edge_correction o lparam f = HTCLIENT.
Proof.
  intros Hy. rewrite top_edge_correction_spec, Hy. simpl.
  rewrite andb_false_r. reflexivity.
Qed.

(** Without a maximum size in the options the correction never runs. *)
Lemma no_max_size_is_client o lparam f :
  max_size_set o = false ->
  top_edge_correction o lparam f = HTCLIENT.
Proof.
  intros Hm. rewrite top_edge_correction_spec, Hm.
  rewrite andb_false_r. reflexivity.
Qed.

Lemma caption_or_client_not_bottomleft hit :
  hit = HTCAPTION \/ hit = HTCLIENT -> (hit =? HTBOTTOMLEFT) = false.
Proof. intros [-> | ->]; reflexivity. Qed.

Lemma not_resize_edge_not_bottomleft hit :
  is_resize_edge hit = false -> (hit =? HTBOTTOMLEFT) = false.
Proof.
  intros E.
  destruct (Z.eqb_spec hit HTBOTTOMLEFT) as [-> | _]; [|reflexivity].
  discriminate E.
Qed.

(** C2, as amended: on the window created from [{Width:800, Height:600,
    MinWidth:400, MinHeight:300, Frameless:true}], where no maximum size is
    set, a hit-test query whose default classification is caption or client
    is answered with the client area wherever the cursor is, at client
    point (400, 2) as much as at (400, 300): the top-edge correction runs
    only when [MaxWidth > 0] or [MaxHeight > 0]. *)
Theorem C2_scenario_without_max_size
        (parent : Controller) (sys : F) (wparam lparam : uintptr) :
  fst (default_hit (NewWindow parent (scenario_options 0 0) sys)
                   wparam lparam) = HTCAPTION \/
  fst (default_hit (NewWindow parent (scenario_options 0 0) sys)
                   wparam lparam) = HTCLIENT ->
  fst (WndProc (NewWindow parent (scenario_options 0 0) sys)
               WM_NCHITTEST wparam lparam) = HTCLIENT.
Proof.
  intros Hhit.
  rewrite hit_test_result
    by (rewrite frontendOptions_NewWindow; reflexivity).
  destruct (default_hit _ wparam lparam) as [hit f]. simpl in Hhit.
  rewrite (caption_or_client_not_bottomleft Hhit).
  apply no_max_size_is_client.
  rewrite frontendOptions_NewWindow. reflexivity.
Qed.





(** C9, as amended: a hit-test query on a frameless window always gets
    one of the hit regions for an answer; a default classification of
    bottom-left corner is the answer itself, before the monitor is asked;
    for every other default classification, a failure to get the monitor
    info or to convert the cursor to client coordinates makes the answer
    the client area. *)
Theorem C9_hit_test_never_fails (w : Window F) (wparam lparam : uintptr) :
  Frameless (frontendOptions w) = true ->
  is_region (fst (WndProc w WM_NCHITTEST wparam lparam)) = true /\
  (fst (default_hit w wparam lparam) = HTBOTTOMLEFT ->
   fst (WndProc w WM_NCHITTEST wparam lparam) = HTBOTTOMLEFT) /\
  (fst (default_hit w wparam lparam) <> HTBOTTOMLEFT ->
   monitor_info_available (snd (default_hit w wparam lparam)) = false \/
   client_ok lparam (snd (default_hit w wparam lparam)) = false ->
   fst (WndProc w WM_NCHITTEST wparam lparam) = HTCLIENT).
Proof.
  intros Hf. rewrite hit_test_result by exact Hf.
  destruct (default_hit w wparam lparam) as [hit f]. simpl.
  split; [|split].
  - destruct (Z.eqb_spec hit HTBOTTOMLEFT) as [-> | _]; [reflexivity|].
    destruct (top_edge_correction_range (frontendOptions w) lparam f)
      as [-> | ->]; reflexivity.
  - intros ->. reflexivity.
  - intros Hne Hfail.
    destruct (Z.eqb_spec hit HTBOTTOMLEFT) as [E | _]; [contradiction|].
    rewrite top_edge_correction_spec.
    destruct Hfail as [-> | ->].
    + reflexivity.
    + rewrite andb_false_r. reflexivity.
Qed.

End HitTest.

(** *** The classifier on the simulated desktop *)

(** C1 (the code departs from it): the default classification of the
    query is the right resize edge, [HTRIGHT], and the classifier answers
    the client area, [HTCLIENT].  In the [switch hit] only the last clause,
    [HTBOTTOMLEFT], has the [return hit]; Go does not fall through the
    seven edge clauses before it. *)
Theorem C1_right_edge_answered_as_client :
  Frameless (frontendOptions (scenario_window (Sim.desktop HTRIGHT) 1200 0))
  = true /\
  fst (default_hit (scenario_window (Sim.desktop HTRIGHT) 1200 0)
                   0 (Sim.MAKELPARAM 799 300)) = HTRIGHT /\
  fst (WndProc (scenario_window (Sim.desktop HTRIGHT) 1200 0)
               WM_NCHITTEST 0 (Sim.MAKELPARAM 799 300)) = HTCLIENT.
Proof. repeat split. Qed.

(** The one corner that is returned as the platform classified it. *)
Example bottom_left_corner_is_kept :
  fst (WndProc (scenario_window (Sim.desktop HTBOTTOMLEFT) 1200 0)
               WM_NCHITTEST 0 (Sim.MAKELPARAM 0 599)) = HTBOTTOMLEFT.
Proof. reflexivity. Qed.

(** A top-left corner query in the top rows comes back as plain top edge. *)
Example top_left_corner_becomes_top :
  fst (WndProc (scenario_window (Sim.desktop HTTOPLEFT) 1200 0)
               WM_NCHITTEST 0 (Sim.MAKELPARAM 1 1)) = HTTOP.
Proof. reflexivity. Qed.

(** C2 as stated fails: the window of the scenario has no maximum size; the
    query at client point (400, 2), classified as client by default (and
    just so when classified as caption), is answered with the client area,
    not with the top resize edge. *)
Lemma C2_counterexample :
  frontendOptions (scenario_window (Sim.desktop HTCLIENT) 0 0)
  = scenario_options 0 0 /\
  client_point (Sim.MAKELPARAM 400 2)
    (snd (default_hit (scenario_window (Sim.desktop HTCLIENT) 0 0)
                      0 (Sim.MAKELPARAM 400 2))) = (400, 2, true) /\
  fst (default_hit (scenario_window (Sim.desktop HTCLIENT) 0 0)
                   0 (Sim.MAKELPARAM 400 2)) = HTCLIENT /\
  fst (WndProc (scenario_window (Sim.desktop HTCLIENT) 0 0)
               WM_NCHITTEST 0 (Sim.MAKELPARAM 400 2)) = HTCLIENT /\
  fst (default_hit (scenario_window (Sim.desktop HTCAPTION) 0 0)
                   0 (Sim.MAKELPARAM 400 2)) = HTCAPTION /\
  fst (WndProc (scenario_window (Sim.desktop HTCAPTION) 0 0)
               WM_NCHITTEST 0 (Sim.MAKELPARAM 400 2)) = HTCLIENT /\
  HTCLIENT <> HTTOP.
Proof. repeat split. discriminate. Qed.

Lemma C2_scenario_without_max_size_witness :
  (fst (default_hit (scenario_window (Sim.desktop HTCLIENT) 0 0)
                    0 (Sim.MAKELPARAM 400 2)) = HTCAPTION \/
   fst (default_hit (scenario_window (Sim.desktop HTCLIENT) 0 0)
                    0 (Sim.MAKELPARAM 400 2)) = HTCLIENT) /\
  fst (WndProc (scenario_window (Sim.desktop HTCLIENT) 0 0)
               WM_NCHITTEST 0 (Sim.MAKELPARAM 400 2)) = HTCLIENT.
Proof.
  split.
  - right. reflexivity.
  - apply (C2_scenario_without_max_size
             None (Sim.boot (Sim.desktop HTCLIENT) scenario_rect)
             0 (Sim.MAKELPARAM 400 2)).
    right. reflexivity.
Defined.



(** Above the primary monitor the handler loses the cursor: the client
    area starts at screen row -7, the cursor is at screen row -5, two rows
    into the client area, and the words of [lparam] read as unsigned put it
    at row 65538. *)
Example negative_screen_row_is_missed :
  cursor_screen_y (Sim.MAKELPARAM 400 65531) = -5 /\
  cursor_client_point (Sim.MAKELPARAM 400 65531)
    (snd (default_hit (scenario_window (desktop_above_primary HTCLIENT)
                                       1200 0)
                      0 (Sim.MAKELPARAM 400 65531))) = (400, 2, true) /\
  client_point (Sim.MAKELPARAM 400 65531)
    (snd (default_hit (scenario_window (desktop_above_primary HTCLIENT)
                                       1200 0)
                      0 (Sim.MAKELPARAM 400 65531))) = (400, 65538, true) /\
  fst (WndProc (scenario_window (desktop_above_primary HTCLIENT) 1200 0)
               WM_NCHITTEST 0 (Sim.MAKELPARAM 400 65531)) = HTCLIENT.
Proof. repeat split. Qed.

(** In the same window row 300 is client area, and so is row 0. *)
Example rows_outside_the_margin :
  fst (WndProc (scenario_window (Sim.desktop HTCAPTION) 1200 0)
               WM_NCHITTEST 0 (Sim.MAKELPARAM 400 300)) = HTCLIENT /\
  fst (WndProc (scenario_window (Sim.desktop HTCAPTION) 1200 0)
               WM_NCHITTEST 0 (Sim.MAKELPARAM 400 0)) = HTCLIENT.
Proof. split; reflexivity. Qed.

(** C9 as stated fails: the monitor info cannot be retrieved, the default
    classification is the bottom-left corner, and the answer is the
    bottom-left corner, not the client area. *)
Lemma C9_counterexample :
  Frameless
    (frontendOptions
       (scenario_window (Sim.without_monitor (Sim.desktop HTBOTTOMLEFT))
                        1200 0)) = true /\
  fst (default_hit
         (scenario_window (Sim.without_monitor (Sim.desktop HTBOTTOMLEFT))
                          1200 0)
         0 (Sim.MAKELPARAM 0 599)) = HTBOTTOMLEFT /\
  monitor_info_available
    (snd (default_hit
            (scenario_window (Sim.without_monitor (Sim.desktop HTBOTTOMLEFT))
                             1200 0)
            0 (Sim.MAKELPARAM 0 599))) = false /\
  fst (WndProc
         (scenario_window (Sim.without_monitor (Sim.desktop HTBOTTOMLEFT))
                          1200 0)
         WM_NCHITTEST 0 (Sim.MAKELPARAM 0 599)) = HTBOTTOMLEFT /\
  HTBOTTOMLEFT <> HTCLIENT.
Proof. repeat split. discriminate. Qed.

Lemma C9_hit_test_never_fails_witness :
  is_region
    (fst (WndProc
            (scenario_window (Sim.without_monitor (Sim.desktop HTRIGHT))
                             1200 0)
            WM_NCHITTEST 0 (Sim.MAKELPARAM 799 300))) = true /\
  fst (default_hit
         (scenario_window (Sim.without_monitor (Sim.desktop HTRIGHT))
                          1200 0)
         0 (Sim.MAKELPARAM 799 300)) = HTRIGHT /\
  fst (WndProc
         (scenario_window (Sim.without_monitor (Sim.desktop HTRIGHT))
                          1200 0)
         WM_NCHITTEST 0 (Sim.MAKELPARAM 799 300)) = HTCLIENT.
Proof.
  destruct (C9_hit_test_never_fails
              (scenario_window (Sim.without_monitor (Sim.desktop HTRIGHT))
                               1200 0)
              0 (Sim.MAKELPARAM 799 300) eq_refl)
    as (Hregion & _ & Hclient).
  split; [exact Hregion|]. split; [reflexivity|].
  apply Hclient.
  - discriminate.
  - left. reflexivity.
Defined.

(** ** The frame-override handler *)

Section FrameOverride.

Context {F : Type} `{Win32 F}.

Implicit Types (w : Window F) (f : F).

(** On a frameless window a frame-calculation query that carries rectangle
    data goes to the frame-calculation case with the form untouched. *)
Lemma WndProc_frame_calculation w wparam lparam :
  Frameless (frontendOptions w) = true ->
  wparam <> 0 ->
  WndProc w WM_NCCALCSIZE wparam lparam = WndProc_NCCALCSIZE w lparam (Form w).
Proof.
  intros Hf Hw. unfold WndProc, WndProc_notifications. rewrite Hf.
  apply Z.eqb_neq in Hw. simpl. rewrite Hw. reflexivity.
Qed.

(** The frame-calculation case in one piece: the sentinel 0 in every case,
    and the rectangle rewritten when both guards are passed. *)
Lemma WndProc_NCCALCSIZE_spec w lparam f :
  WndProc_NCCALCSIZE w lparam f =
  (0, with_Form w
        (if monitor_info_available f && max_size_set (frontendOptions w)
         then store_RECT lparam
                (adjust_rgrc0 (load_RECT lparam f) (scaledFrameX f)
                              (scaledFrameY f) (scaledPadding f)
                              (window_style f)) f
         else f)).
Proof.
  unfold WndProc_NCCALCSIZE, monitor_info_available, max_size_set,
    scaledFrameX, scaledFrameY, scaledPadding, monitor_dpi, monitor_of,
    window_style.
  destruct (w32_GetMonitorInfo _ _); [|reflexivity].
  destruct ((0 <? _) || (0 <? _)); [|reflexivity].
  destruct (w32_GetDPIForMonitor _ _ _) as [dpiX dpiY]. reflexivity.
Qed.

(** As long as nothing overflows [int32], the adjustment is the plain
    one. *)
Lemma adjust_rgrc0_exact (r : RECT) (frameX frameY padding style : Z) :
  in_range 32 (frameX + padding) ->
  in_range 32 (frameY + padding) ->
  in_range 32 padding ->
  in_range 32 (Left r + (frameX + padding)) ->
  in_range 32 (Top r + padding) ->
  in_range 32 (Right r - (frameX + padding)) ->
  in_range 32 (Bottom r - (frameY + padding)) ->
  adjust_rgrc0 r frameX frameY padding style =
  mkRECT (Left r + (frameX + padding))
         (if negb (Z.land style WS_MAXIMIZE =? 0)
          then Top r + padding else Top r)
         (Right r - (frameX + padding))
         (Bottom r - (frameY + padding)).
Proof.
  intros Hx Hy Hp Hl Ht Hr Hb.
  unfold adjust_rgrc0, add32, sub32, add.
  rewrite (GoIntFacts.int_small (GoIntFacts.in_range_32_64 Hx)).
  rewrite (GoIntFacts.int_small (GoIntFacts.in_range_32_64 Hy)).
  rewrite (GoIntFacts.int32_small Hx), (GoIntFacts.int32_small Hy),
    (GoIntFacts.int32_small Hp).
  rewrite (GoIntFacts.int32_small Hl), (GoIntFacts.int32_small Ht),
    (GoIntFacts.int32_small Hr), (GoIntFacts.int32_small Hb).
  reflexivity.
Qed.

(** C4, as amended: on a frameless window whose options set [MaxWidth > 0]
    or [MaxHeight > 0], a frame-calculation query that carries rectangle
    data, with monitor info available, adds [scaledFrameX + scaledPadding]
    to the left of the proposed rectangle, takes it from the right, takes
    [scaledFrameY + scaledPadding] from the bottom, adds [scaledPadding] to
    the top if and only if the window style has [WS_MAXIMIZE], all in
    [int32], and returns 0. *)
Theorem C4_frame_override (w : Window F) (wparam lparam : uintptr) :
  let f := Form w in
  let r := load_RECT lparam f in
  let dx := int32 (add (scaledFrameX f) (scaledPadding f)) in
  let dy := int32 (add (scaledFrameY f) (scaledPadding f)) in
  Frameless (frontendOptions w) = true ->
  wparam <> 0 ->
  monitor_info_available f = true ->
  max_size_set (frontendOptions w) = true ->
  WndProc w WM_NCCALCSIZE wparam lparam =
  (0, with_Form w
        (store_RECT lparam
           (mkRECT (add32 (Left r) dx)
                   (if maximized f
                    then add32 (Top r) (int32 (scaledPadding f))
                    else Top r)
                   (sub32 (Right r) dx)
                   (sub32 (Bottom r) dy)) f)).
Proof.
  intros f r dx dy Hf Hw Hmon Hmax.
  rewrite WndProc_frame_calculation by assumption.
  rewrite WndProc_NCCALCSIZE_spec. fold f. rewrite Hmon, Hmax.
  reflexivity.
Qed.

(** Without a maximum size the proposed rectangle is accepted as it is. *)
Lemma frame_override_without_max_size w wparam lparam :
  Frameless (frontendOptions w) = true ->
  wparam <> 0 ->
  max_size_set (frontendOptions w) = false ->
  WndProc w WM_NCCALCSIZE wparam lparam = (0, w).
Proof.
  intros Hf Hw Hmax.
  rewrite WndProc_frame_calculation by assumption.
  rewrite WndProc_NCCALCSIZE_spec, Hmax, andb_false_r.
  destruct w; reflexivity.
Qed.

End FrameOverride.

(** C4 as stated fails: the window of the scenario has no maximum size;
    monitor info is available, frame and padding scale to 4 pixels each,
    and the query leaves the proposed rectangle (100,100)-(1600,1200) as it
    is instead of shrinking it to (108,100)-(1592,1192). *)
Lemma C4_counterexample :
  Frameless (frontendOptions (scenario_window (Sim.desktop HTCLIENT) 0 0))
  = true /\
  monitor_info_available
    (Form (scenario_window (Sim.desktop HTCLIENT) 0 0)) = true /\
  scaledFrameX (Form (scenario_window (Sim.desktop HTCLIENT) 0 0))
  + scaledPadding (Form (scenario_window (Sim.desktop HTCLIENT) 0 0)) = 8 /\
  scaledFrameY (Form (scenario_window (Sim.desktop HTCLIENT) 0 0))
  + scaledPadding (Form (scenario_window (Sim.desktop HTCLIENT) 0 0)) = 8 /\
  load_RECT Sim.rect_address
    (Form (scenario_window (Sim.desktop HTCLIENT) 0 0))
  = mkRECT 100 100 1600 1200 /\
  fst (WndProc (scenario_window (Sim.desktop HTCLIENT) 0 0)
               WM_NCCALCSIZE 1 Sim.rect_address) = 0 /\
  load_RECT Sim.rect_address
    (Form (snd (WndProc (scenario_window (Sim.desktop HTCLIENT) 0 0)
                        WM_NCCALCSIZE 1 Sim.rect_address)))
  = mkRECT 100 100 1600 1200 /\
  mkRECT 100 100 1600 1200 <> mkRECT 108 100 1592 1192.
Proof. repeat split. discriminate. Qed.

Lemma C4_frame_override_witness :
  (1 <> 0) /\
  load_RECT Sim.rect_address
    (Form (snd (WndProc (scenario_window (Sim.desktop HTCLIENT) 1200 0)
                        WM_NCCALCSIZE 1 Sim.rect_address)))
  = mkRECT 108 100 1592 1192 /\
  load_RECT Sim.rect_address
    (Form (snd (WndProc
                  (scenario_window (Sim.with_maximize (Sim.desktop HTCLIENT))
                                   1200 0)
                  WM_NCCALCSIZE 1 Sim.rect_address)))
  = mkRECT 108 104 1592 1192.
Proof.
  assert (N : 1 <> 0) by discriminate.
  split; [exact N|]. split.
  - rewrite (C4_frame_override
               (scenario_window (Sim.desktop HTCLIENT) 1200 0)
               (wparam := 1) Sim.rect_address)
      by (reflexivity || exact N).
    reflexivity.
  - rewrite (C4_frame_override
               (scenario_window (Sim.with_maximize (Sim.desktop HTCLIENT))
                                1200 0)
               (wparam := 1) Sim.rect_address)
      by (reflexivity || exact N).
    reflexivity.
Defined.

(** ** The DPI change handler *)

Section DpiChange.

Context {F : Type} `{Win32 F}.

Implicit Types (w : Window F).

(** A DPI change, frameless or not: one [SetWindowPos] with the suggested
    rectangle, then the default procedure of the form. *)
Lemma WndProc_DPICHANGED w wparam lparam :
  WndProc w WM_DPICHANGED wparam lparam =
  WndProc_default w WM_DPICHANGED wparam lparam
    (w32_SetWindowPos (Form_Handle (Form w)) 0
       (Left (load_RECT lparam (Form w)))
       (Top (load_RECT lparam (Form w)))
       (sub32 (Right (load_RECT lparam (Form w)))
              (Left (load_RECT lparam (Form w))))
       (sub32 (Bottom (load_RECT lparam (Form w)))
              (Top (load_RECT lparam (Form w))))
       (Z.lor SWP_NOZORDER SWP_NOACTIVATE) (Form w)).
Proof.
  unfold WndProc, WndProc_notifications.
  destruct (Frameless (frontendOptions w)); reflexivity.
Qed.

(** C8: a DPI-changed event whose suggested rectangle is
    (left, top, right, bottom), of a width and a height that [int32] can
    hold, makes the handler call [SetWindowPos] once, with position
    (left, top) and size (right - left, bottom - top) and the flags
    no-z-order and no-activate, before the message goes on to the default
    procedure; the stored size constraints stay as they are. *)
Theorem C8_dpi_change_applies_suggestion
        (w : Window F) (wparam lparam : uintptr) :
  let r := load_RECT lparam (Form w) in
  in_range 32 (Right r - Left r) ->
  in_range 32 (Bottom r - Top r) ->
  WndProc w WM_DPICHANGED wparam lparam =
  WndProc_default w WM_DPICHANGED wparam lparam
    (w32_SetWindowPos (Form_Handle (Form w)) 0
       (Left r) (Top r) (Right r - Left r) (Bottom r - Top r)
       (Z.lor SWP_NOZORDER SWP_NOACTIVATE) (Form w)) /\
  constraints (snd (WndProc w WM_DPICHANGED wparam lparam)) = constraints w.
Proof.
  intros r Hw Hh. split.
  - rewrite WndProc_DPICHANGED. fold r. unfold sub32.
    rewrite (GoIntFacts.int32_small Hw), (GoIntFacts.int32_small Hh).
    reflexivity.
  - apply constraints_WndProc.
Qed.

End DpiChange.

Lemma C8_dpi_change_applies_suggestion_witness :
  load_RECT Sim.rect_address
    (Form (scenario_window (Sim.desktop HTCLIENT) 0 0))
  = mkRECT 100 100 1600 1200 /\
  in_range 32 (1600 - 100) /\
  in_range 32 (1200 - 100) /\
  Sim.bounds (Form (snd (WndProc (scenario_window (Sim.desktop HTCLIENT) 0 0)
                                 WM_DPICHANGED 0 Sim.rect_address)))
  = mkRECT 100 100 1600 1200 /\
  constraints (snd (WndProc (scenario_window (Sim.desktop HTCLIENT) 0 0)
                            WM_DPICHANGED 0 Sim.rect_address))
  = (400, 300, 0, 0).
Proof.
  assert (Hw : in_range 32 (1600 - 100)) by (unfold in_range; simpl; lia).
  assert (Hh : in_range 32 (1200 - 100)) by (unfold in_range; simpl; lia).
  destruct (C8_dpi_change_applies_suggestion
              (scenario_window (Sim.desktop HTCLIENT) 0 0)
              0 Sim.rect_address) as [Hcall Hkeep];
    [exact Hw | exact Hh |].
  split; [reflexivity|]. split; [exact Hw|]. split; [exact Hh|]. split.
  - rewrite Hcall. reflexivity.
  - rewrite Hkeep. reflexivity.
Defined.

(** ** The geometry state *)

Section Geometry.

Context {F : Type} `{Win32 F}.

Implicit Types (w : Window F) (cs : list Call).

(** C5: whatever calls (of [SetMinSize] and [SetMaxSize] in particular)
    have established the stored constraints (mw, mh, Mw, Mh),
    [Fullscreen] immediately followed by [UnFullscreen] leaves the stored
    constraints equal to (mw, mh, Mw, Mh). *)
Theorem C5_fullscreen_round_trip
        (w : Window F) (cs : list Call) (mw mh Mw Mh : Z) :
  forallb is_size_call cs = true ->
  constraints (calls w cs) = (mw, mh, Mw, Mh) ->
  constraints (UnFullscreen (Fullscreen (calls w cs))) = (mw, mh, Mw, Mh).
Proof.
  intros _ E.
  rewrite constraints_UnFullscreen, constraints_Fullscreen. exact E.
Qed.

(** C6: on a window that is not full-screen [UnFullscreen] changes
    nothing: the window after the call is the window before it, form
    (full-screen flag, native constraints, presentation) and stored
    constraints alike. *)
Theorem C6_exit_when_not_fullscreen (w : Window F) :
  Form_IsFullScreen (Form w) = false ->
  UnFullscreen w = w.
Proof.
  intros E. unfold UnFullscreen. rewrite E. reflexivity.
Qed.

(** C7: for options with [MinWidth <= MaxWidth] and
    [MinHeight <= MaxHeight] wherever the maximum is positive, the window
    that [NewWindow] returns stores exactly the four constraint fields of
    the options. *)
Theorem C7_created_constraints
        (parent : Controller) (o : App) (sys : F) :
  (0 < MaxWidth o -> MinWidth o <= MaxWidth o) ->
  (0 < MaxHeight o -> MinHeight o <= MaxHeight o) ->
  constraints (NewWindow parent o sys) =
  (MinWidth o, MinHeight o, MaxWidth o, MaxHeight o).
Proof.
  intros _ _. apply constraints_NewWindow.
Qed.

(** C10: [Fullscreen] clears the constraints through the setters of the
    embedded form only, maximum first, and leaves the four stored fields as
    they are; of all calls on a window only [SetMinSize] and [SetMaxSize]
    change a stored field, each its own pair. *)
Theorem C10_stored_constraints_frame (w : Window F) :
  Form (Fullscreen w) =
  Form_Fullscreen (Form_SetMinSize 0 0 (Form_SetMaxSize 0 0 (Form w))) /\
  constraints (Fullscreen w) = constraints w /\
  forall c : Call,
    constraints (call w c) =
    match c with
    | CallSetMinSize a b => (a, b, maxWidth w, maxHeight w)
    | CallSetMaxSize a b => (minWidth w, minHeight w, a, b)
    | CallFullscreen | CallUnFullscreen | CallWndProc _ _ _ => constraints w
    end.
Proof.
  repeat split.
  intros c. rewrite constraints_call. destruct c; reflexivity.
Qed.

End Geometry.

Lemma C5_fullscreen_round_trip_witness :
  constraints
    (calls (scenario_window (Sim.desktop HTCLIENT) 0 0)
           [CallSetMinSize 320 200; CallSetMaxSize 1920 1080;
            CallSetMinSize 640 480]) = (640, 480, 1920, 1080) /\
  constraints
    (UnFullscreen
       (Fullscreen
          (calls (scenario_window (Sim.desktop HTCLIENT) 0 0)
                 [CallSetMinSize 320 200; CallSetMaxSize 1920 1080;
                  CallSetMinSize 640 480]))) = (640, 480, 1920, 1080).
Proof.
  split.
  - reflexivity.
  - apply (C5_fullscreen_round_trip
             (scenario_window (Sim.desktop HTCLIENT) 0 0)
             [CallSetMinSize 320 200; CallSetMaxSize 1920 1080;
              CallSetMinSize 640 480]); reflexivity.
Defined.

(** On the simulated platform the native constraints come back as well. *)
Example native_constraints_round_trip :
  let w := calls (scenario_window (Sim.desktop HTCLIENT) 0 0)
                 [CallSetMinSize 640 480; CallSetMaxSize 1920 1080] in
  (Sim.minSize (Form (Fullscreen w)), Sim.maxSize (Form (Fullscreen w)))
  = ((0, 0), (0, 0)) /\
  (Sim.minSize (Form (UnFullscreen (Fullscreen w))),
   Sim.maxSize (Form (UnFullscreen (Fullscreen w))))
  = ((640, 480), (1920, 1080)).
Proof. split; reflexivity. Qed.

Lemma C6_exit_when_not_fullscreen_witness :
  Form_IsFullScreen (Form (scenario_window (Sim.desktop HTCLIENT) 0 0))
  = false /\
  UnFullscreen (scenario_window (Sim.desktop HTCLIENT) 0 0)
  = scenario_window (Sim.desktop HTCLIENT) 0 0.
Proof.
  split.
  - reflexivity.
  - apply (C6_exit_when_not_fullscreen
             (scenario_window (Sim.desktop HTCLIENT) 0 0)).
    reflexivity.
Defined.

Lemma C7_created_constraints_witness :
  (0 < 1200 -> 400 <= 1200) /\
  (0 < 900 -> 300 <= 900) /\
  constraints (scenario_window (Sim.desktop HTCLIENT) 1200 900)
  = (400, 300, 1200, 900).
Proof.
  split; [lia|]. split; [lia|].
  apply (C7_created_constraints
           None (scenario_options 1200 900)
           (Sim.boot (Sim.desktop HTCLIENT) scenario_rect)).
  - simpl. lia.
  - simpl. lia.
Defined.

(** * Further properties of the window *)

(** ** Message dispatch *)

Section Dispatch.

Context {F : Type} `{Win32 F}.

Implicit Types (w : Window F) (c : Call) (cs : list Call).

(** X1: A message that [WndProc] has no case for reaches the default procedure
    of the form with the form as it was: no platform call is made before
    it, and the answer is the default procedure's. *)
Theorem unhandled_messages_forwarded
        (w : Window F) (msg : Z) (wparam lparam : uintptr) :
  handled_message (frontendOptions w) msg wparam = false ->
  WndProc w msg wparam lparam = WndProc_default w msg wparam lparam (Form w).
Proof.
  unfold handled_message, WndProc, WndProc_notifications.
  change 0x02E0 with WM_DPICHANGED.
  intros Hu.
  destruct (msg =? WM_NCLBUTTONDOWN); [discriminate|].
  destruct (msg =? WM_MOVE); [discriminate|].
  destruct (msg =? WM_MOVING); [discriminate|].
  destruct (msg =? WM_DPICHANGED); [discriminate|].
  simpl in *.
  destruct (Frameless (frontendOptions w)); [|reflexivity].
  simpl in Hu.
  destruct (msg =? WM_CREATE); [discriminate|].
  destruct (msg =? WM_NCHITTEST); [discriminate|].
  destruct (msg =? WM_NCCALCSIZE); [|reflexivity].
  simpl in Hu. rewrite Hu. reflexivity.
Qed.

(** X2: A non-client left-button-down gives the input focus to the window's
    own handle, a move or moving notification runs the registered position
    observer (none registered: nothing), each once and before the default
    procedure, on framed and frameless windows alike. *)
Theorem notifications_then_default
        (w : Window F) (wparam lparam : uintptr) :
  WndProc w WM_NCLBUTTONDOWN wparam lparam =
  WndProc_default w WM_NCLBUTTONDOWN wparam lparam
    (w32_SetFocus (Form_Handle (Form w)) (Form w)) /\
  forall msg : Z,
    msg = WM_MOVE \/ msg = WM_MOVING ->
    WndProc w msg wparam lparam =
    WndProc_default w msg wparam lparam
      match notifyParentWindowPositionChanged w with
      | Some notify => notify (Form w)
      | None => Form w
      end.
Proof.
  split.
  - unfold WndProc, WndProc_notifications.
    destruct (Frameless (frontendOptions w)); reflexivity.
  - intros msg [-> | ->]; unfold WndProc, WndProc_notifications;
      destruct (Frameless (frontendOptions w)); reflexivity.
Qed.

(** X3: When the monitor cannot be queried, a frame-calculation query on a
    frameless window is answered with 0 and nothing is changed: the
    proposed rectangle stands as the client area. *)
Theorem frame_override_without_monitor
        (w : Window F) (wparam lparam : uintptr) :
  Frameless (frontendOptions w) = true ->
  wparam <> 0 ->
  monitor_info_available (Form w) = false ->
  WndProc w WM_NCCALCSIZE wparam lparam = (0, w).
Proof.
  intros Hf Hw Hmon.
  rewrite WndProc_frame_calculation by assumption.
  rewrite WndProc_NCCALCSIZE_spec, Hmon. simpl.
  destruct w; reflexivity.
Qed.

(** X4: A default classification that is not a named resize edge or corner
    is answered with the top resize edge or the client area; unless it is
    client itself, it is never the answer: caption, nowhere and the rest
    are not handed through. *)
Theorem non_edge_hit_is_top_or_client
        (w : Window F) (wparam lparam : uintptr) :
  Frameless (frontendOptions w) = true ->
  is_resize_edge (fst (default_hit w wparam lparam)) = false ->
  (fst (WndProc w WM_NCHITTEST wparam lparam) = HTTOP \/
   fst (WndProc w WM_NCHITTEST wparam lparam) = HTCLIENT) /\
  (fst (default_hit w wparam lparam) <> HTCLIENT ->
   fst (WndProc w WM_NCHITTEST wparam lparam)
   <> fst (default_hit w wparam lparam)).
Proof.
  intros Hf Hedge.
  assert (Hr : fst (WndProc w WM_NCHITTEST wparam lparam) = HTTOP \/
               fst (WndProc w WM_NCHITTEST wparam lparam) = HTCLIENT).
  { rewrite hit_test_result by exact Hf.
    destruct (default_hit w wparam lparam) as [hit f]. simpl in Hedge.
    rewrite (not_resize_edge_not_bottomleft _ Hedge).
    apply top_edge_correction_range. }
  split; [exact Hr|].
  intros Hnc Heq. destruct Hr as [Ht | Hc].
  - rewrite Ht in Heq. rewrite <- Heq in Hedge. discriminate Hedge.
  - rewrite Hc in Heq. apply Hnc. symmetry. exact Heq.
Qed.

(** *** The options never change *)

Lemma frontendOptions_call w c :
  frontendOptions (call w c) = frontendOptions w.
Proof.
  destruct c; simpl; try reflexivity.
  - unfold UnFullscreen.
    destruct (Form_IsFullScreen (Form w)); reflexivity.
  - apply frontendOptions_WndProc.
Qed.

Lemma frontendOptions_calls cs : forall w,
  frontendOptions (calls w cs) = frontendOptions w.
Proof.
  unfold calls.
  induction cs as [|c cs IH]; intros w; simpl.
  - reflexivity.
  - rewrite IH. apply frontendOptions_call.
Qed.

(** X5: The top-edge correction looks at the maximum size of the options, not
    at the stored one: on a frameless window created without a maximum
    size, no later call, [SetMaxSize] included, makes a caption or client
    point a top resize edge. *)
Theorem later_max_size_does_not_enable_top_edge
        (w : Window F) (cs : list Call) (wparam lparam : uintptr) :
  Frameless (frontendOptions w) = true ->
  max_size_set (frontendOptions w) = false ->
  fst (default_hit (calls w cs) wparam lparam) = HTCAPTION \/
  fst (default_hit (calls w cs) wparam lparam) = HTCLIENT ->
  fst (WndProc (calls w cs) WM_NCHITTEST wparam lparam) = HTCLIENT.
Proof.
  intros Hf Hmax Hhit.
  rewrite hit_test_result by (rewrite frontendOptions_calls; exact Hf).
  destruct (default_hit (calls w cs) wparam lparam) as [hit f].
  simpl in Hhit.
  rewrite (caption_or_client_not_bottomleft Hhit).
  apply no_max_size_is_client.
  rewrite frontendOptions_calls. exact Hmax.
Qed.

(** *** Sequences of calls *)

Lemma calls_app w cs1 cs2 :
  calls w (cs1 ++ cs2) = calls (calls w cs1) cs2.
Proof. unfold calls. apply fold_left_app. Qed.

Lemma stored_min_call w c :
  is_min_call c = false -> stored_min (call w c) = stored_min w.
Proof.
  intros Hc. unfold stored_min.
  pose proof (constraints_call w c) as E. unfold constraints in E.
  destruct c; simpl in Hc; try discriminate; simpl in E;
    inversion E; reflexivity.
Qed.

Lemma stored_max_call w c :
  is_max_call c = false -> stored_max (call w c) = stored_max w.
Proof.
  intros Hc. unfold stored_max.
  pose proof (constraints_call w c) as E. unfold constraints in E.
  destruct c; simpl in Hc; try discriminate; simpl in E;
    inversion E; reflexivity.
Qed.

Lemma stored_min_calls cs : forall w,
  forallb (fun c => negb (is_min_call c)) cs = true ->
  stored_min (calls w cs) = stored_min w.
Proof.
  unfold calls.
  induction cs as [|c cs IH]; intros w Hcs; simpl in *.
  - reflexivity.
  - apply andb_true_iff in Hcs as [Hc Hcs].
    rewrite IH by exact Hcs.
    apply stored_min_call. apply negb_true_iff. exact Hc.
Qed.

Lemma stored_max_calls cs : forall w,
  forallb (fun c => negb (is_max_call c)) cs = true ->
  stored_max (calls w cs) = stored_max w.
Proof.
  unfold calls.
  induction cs as [|c cs IH]; intros w Hcs; simpl in *.
  - reflexivity.
  - apply andb_true_iff in Hcs as [Hc Hcs].
    rewrite IH by exact Hcs.
    apply stored_max_call. apply negb_true_iff. exact Hc.
Qed.

(** X6: In any run of calls the stored minimum is what the last [SetMinSize]
    of the run was given: full-screen toggles, messages, [SetMaxSize] and
    whatever the toolkit does in between leave it alone. *)
Theorem last_SetMinSize_wins
        (w : Window F) (cs1 cs2 : list Call) (a b : Z) :
  forallb (fun c => negb (is_min_call c)) cs2 = true ->
  stored_min (calls w (cs1 ++ CallSetMinSize a b :: cs2)) = (a, b).
Proof.
  intros Hcs2.
  rewrite calls_app.
  change (calls (calls w cs1) (CallSetMinSize a b :: cs2))
    with (calls (SetMinSize (calls w cs1) a b) cs2).
  rewrite stored_min_calls by exact Hcs2. reflexivity.
Qed.

(** X7: In any run of calls the stored maximum is what the last [SetMaxSize]
    of the run was given. *)
Theorem last_SetMaxSize_wins
        (w : Window F) (cs1 cs2 : list Call) (a b : Z) :
  forallb (fun c => negb (is_max_call c)) cs2 = true ->
  stored_max (calls w (cs1 ++ CallSetMaxSize a b :: cs2)) = (a, b).
Proof.
  intros Hcs2.
  rewrite calls_app.
  change (calls (calls w cs1) (CallSetMaxSize a b :: cs2))
    with (calls (SetMaxSize (calls w cs1) a b) cs2).
  rewrite stored_max_calls by exact Hcs2. reflexivity.
Qed.

(** X8: Leaving full-screen on a window that the toolkit reports as
    full-screen after [Fullscreen] ends with the stored constraints handed
    to the form again, minimum first, after the native constraints had been
    cleared maximum first. *)
Theorem fullscreen_round_trip_native (w : Window F) :
  Form_IsFullScreen (Form (Fullscreen w)) = true ->
  Form (UnFullscreen (Fullscreen w)) =
  Form_SetMaxSize (maxWidth w) (maxHeight w)
    (Form_SetMinSize (minWidth w) (minHeight w)
       (Form_UnFullscreen
          (Form_Fullscreen
             (Form_SetMinSize 0 0 (Form_SetMaxSize 0 0 (Form w)))))) /\
  constraints (UnFullscreen (Fullscreen w)) = constraints w.
Proof.
  intros Hfs. split.
  - rewrite (Form_UnFullscreen_reapplies _ Hfs). reflexivity.
  - rewrite constraints_UnFullscreen. reflexivity.
Qed.

End Dispatch.

Lemma unhandled_messages_forwarded_witness :
  handled_message
    (frontendOptions (scenario_window (Sim.desktop HTCLIENT) 1200 0))
    0x0005 0 = false /\
  WndProc (scenario_window (Sim.desktop HTCLIENT) 1200 0) 0x0005 0 0 =
  (0, with_Form (scenario_window (Sim.desktop HTCLIENT) 1200 0)
        (Sim.log (Sim.EvDefault 0x0005 0 0)
           (Form (scenario_window (Sim.desktop HTCLIENT) 1200 0)))).
Proof.
  split.
  - reflexivity.
  - rewrite (unhandled_messages_forwarded
               (scenario_window (Sim.desktop HTCLIENT) 1200 0)
               0x0005 0 0 eq_refl).
    reflexivity.
Defined.

Lemma frame_override_without_monitor_witness :
  monitor_info_available
    (Form (scenario_window (Sim.without_monitor (Sim.desktop HTCLIENT))
                           1200 0)) = false /\
  WndProc (scenario_window (Sim.without_monitor (Sim.desktop HTCLIENT))
                           1200 0)
          WM_NCCALCSIZE 1 Sim.rect_address =
  (0, scenario_window (Sim.without_monitor (Sim.desktop HTCLIENT)) 1200 0).
Proof.
  split.
  - reflexivity.
  - apply (frame_override_without_monitor
             (scenario_window (Sim.without_monitor (Sim.desktop HTCLIENT))
                              1200 0)
             (wparam := 1) Sim.rect_address).
    + reflexivity.
    + discriminate.
    + reflexivity.
Defined.

Lemma non_edge_hit_is_top_or_client_witness :
  is_resize_edge
    (fst (default_hit (scenario_window (Sim.desktop HTCAPTION) 1200 0)
                      0 (Sim.MAKELPARAM 400 300))) = false /\
  (fst (WndProc (scenario_window (Sim.desktop HTCAPTION) 1200 0)
                WM_NCHITTEST 0 (Sim.MAKELPARAM 400 300)) = HTTOP \/
   fst (WndProc (scenario_window (Sim.desktop HTCAPTION) 1200 0)
                WM_NCHITTEST 0 (Sim.MAKELPARAM 400 300)) = HTCLIENT) /\
  fst (WndProc (scenario_window (Sim.desktop HTCAPTION) 1200 0)
               WM_NCHITTEST 0 (Sim.MAKELPARAM 400 300)) = HTCLIENT /\
  HTCLIENT <> HTCAPTION.
Proof.
  destruct (non_edge_hit_is_top_or_client
              (scenario_window (Sim.desktop HTCAPTION) 1200 0)
              0 (Sim.MAKELPARAM 400 300))
    as [Hrange Hnot]; [reflexivity | reflexivity |].
  split; [reflexivity|]. split; [exact Hrange|].
  split; [reflexivity|].
  apply Hnot. discriminate.
Defined.

Lemma later_max_size_does_not_enable_top_edge_witness :
  stored_max (calls (scenario_window (Sim.desktop HTCLIENT) 0 0)
                    [CallSetMaxSize 1200 900]) = (1200, 900) /\
  fst (WndProc (calls (scenario_window (Sim.desktop HTCLIENT) 0 0)
                      [CallSetMaxSize 1200 900])
               WM_NCHITTEST 0 (Sim.MAKELPARAM 400 2)) = HTCLIENT.
Proof.
  split.
  - reflexivity.
  - apply (later_max_size_does_not_enable_top_edge
             (scenario_window (Sim.desktop HTCLIENT) 0 0)
             [CallSetMaxSize 1200 900] 0 (Sim.MAKELPARAM 400 2)).
    + reflexivity.
    + reflexivity.
    + right. reflexivity.
Defined.

Lemma last_SetMinSize_wins_witness :
  stored_min
    (calls (scenario_window (Sim.desktop HTCLIENT) 0 0)
           ([CallSetMinSize 320 200; CallFullscreen]
            ++ CallSetMinSize 640 480
            :: [CallSetMaxSize 1920 1080; CallUnFullscreen;
                CallWndProc WM_MOVE 0 0])) = (640, 480).
Proof.
  apply (last_SetMinSize_wins
           (scenario_window (Sim.desktop HTCLIENT) 0 0)
           [CallSetMinSize 320 200; CallFullscreen]
           [CallSetMaxSize 1920 1080; CallUnFullscreen;
            CallWndProc WM_MOVE 0 0] 640 480).
  reflexivity.
Defined.

Lemma last_SetMaxSize_wins_witness :
  stored_max
    (calls (scenario_window (Sim.desktop HTCLIENT) 0 0)
           ([CallSetMaxSize 1024 768]
            ++ CallSetMaxSize 1920 1080
            :: [CallSetMinSize 640 480; CallFullscreen; CallUnFullscreen]))
  = (1920, 1080).
Proof.
  apply (last_SetMaxSize_wins
           (scenario_window (Sim.desktop HTCLIENT) 0 0)
           [CallSetMaxSize 1024 768]
           [CallSetMinSize 640 480; CallFullscreen; CallUnFullscreen]
           1920 1080).
  reflexivity.
Defined.

Lemma fullscreen_round_trip_native_witness :
  Form_IsFullScreen
    (Form (Fullscreen (scenario_window (Sim.desktop HTCLIENT) 1200 900)))
  = true /\
  (Sim.minSize
     (Form (Fullscreen (scenario_window (Sim.desktop HTCLIENT) 1200 900))),
   Sim.maxSize
     (Form (Fullscreen (scenario_window (Sim.desktop HTCLIENT) 1200 900))))
  = ((0, 0), (0, 0)) /\
  (Sim.minSize
     (Form (UnFullscreen
              (Fullscreen
                 (scenario_window (Sim.desktop HTCLIENT) 1200 900)))),
   Sim.maxSize
     (Form (UnFullscreen
              (Fullscreen
                 (scenario_window (Sim.desktop HTCLIENT) 1200 900)))))
  = ((400, 300), (1200, 900)).
Proof.
  split; [reflexivity|]. split; [reflexivity|].
  destruct (fullscreen_round_trip_native
              (scenario_window (Sim.desktop HTCLIENT) 1200 900))
    as [Hform _]; [reflexivity|].
  rewrite Hform. reflexivity.
Defined.

(** ** Window creation *)

(** X9: The extended style decodes back to the options: the top-most bit is
    set exactly for [AlwaysOnTop], the no-redirection-bitmap bit exactly
    for a translucent window, and the app-window and control-parent bits
    exactly when Windows-specific options are given. *)
Theorem exStyle_decodes (o : App) :
  negb (Z.land (exStyle_of o) WS_EX_TOPMOST =? 0) = AlwaysOnTop o /\
  negb (Z.land (exStyle_of o) WS_EX_NOREDIRECTIONBITMAP =? 0)
  = windows_flag WindowIsTranslucent o /\
  negb (Z.land (exStyle_of o) WS_EX_APPWINDOW =? 0)
  = match Windows o with Some _ => true | None => false end /\
  negb (Z.land (exStyle_of o) WS_EX_CONTROLPARENT =? 0)
  = match Windows o with Some _ => true | None => false end.
Proof.
  unfold exStyle_of, windows_flag.
  destruct (AlwaysOnTop o), (Windows o) as [[[] ?]|];
    repeat split; reflexivity.
Qed.

(** X10: On the simulated platform: [NewWindow] hands the size constraints of
    the options to the toolkit unless the window is to start full-screen,
    in which case the native constraints stay as the toolkit had them; the
    stored constraints are the options' either way. *)
Theorem created_native_constraints
        (parent : Controller) (o : App) (sys : Sim.State) :
  Sim.minSize (Form (NewWindow parent o sys))
  = (if Fullscreen_ o then Sim.minSize sys
     else (MinWidth o, MinHeight o)) /\
  Sim.maxSize (Form (NewWindow parent o sys))
  = (if Fullscreen_ o then Sim.maxSize sys
     else (MaxWidth o, MaxHeight o)) /\
  stored_min (NewWindow parent o sys) = (MinWidth o, MinHeight o) /\
  stored_max (NewWindow parent o sys) = (MaxWidth o, MaxHeight o).
Proof.
  unfold NewWindow, windows_flag.
  destruct o as [title width height mw mh Mw Mh dr fs fl aot menu wo].
  simpl.
  destruct fs, menu, wo as [[[] []]|]; repeat split; reflexivity.
Qed.

(** * Properties of the build command *)

Module BuildFacts.

Import BuildCmd BuildVocabulary.

Local Open Scope string_scope.

(** ** Strings *)

Lemma length_app (s t : string) :
  String.length (s ++ t) = (String.length s + String.length t)%nat.
Proof. induction s as [|c s IH]; simpl; [reflexivity | now rewrite IH]. Qed.

Lemma substring_0_length (s : string) : substring 0 (String.length s) s = s.
Proof. induction s as [|c s IH]; simpl; [reflexivity | now rewrite IH]. Qed.

Lemma substring_0_app (s t : string) :
  substring 0 (String.length s) (s ++ t) = s.
Proof.
  induction s as [|c s IH]; simpl.
  - destruct t; reflexivity.
  - now rewrite IH.
Qed.

Lemma substring_skip_app (s t : string) (m : nat) :
  substring (String.length s) m (s ++ t) = substring 0 m t.
Proof. induction s as [|c s IH]; simpl; [reflexivity | exact IH]. Qed.

Lemma substring_split (s : string) : forall n : nat,
  (n <= String.length s)%nat ->
  substring 0 n s ++ substring n (String.length s - n) s = s.
Proof.
  induction s as [|c s IH]; intros n Hn; simpl in Hn.
  - assert (n = 0)%nat as -> by lia. reflexivity.
  - destruct n as [|n].
    + simpl. now rewrite substring_0_length.
    + simpl. rewrite IH by lia. reflexivity.
Qed.

(** A string that was given a suffix has it. *)
Lemma HasSuffix_app (a b : string) : HasSuffix (a ++ b) b = true.
Proof.
  unfold HasSuffix. rewrite length_app.
  replace (String.length a + String.length b - String.length b)%nat
    with (String.length a) by lia.
  rewrite substring_skip_app, substring_0_length, String.eqb_refl.
  rewrite andb_true_r. apply Nat.leb_le. lia.
Qed.

(** Trimming a suffix that was appended gives the string back. *)
Lemma TrimSuffix_app (a b : string) : TrimSuffix (a ++ b) b = a.
Proof.
  unfold TrimSuffix. rewrite HasSuffix_app, length_app.
  replace (String.length a + String.length b - String.length b)%nat
    with (String.length a) by lia.
  apply substring_0_app.
Qed.

(** Appending a suffix that was trimmed gives the string back. *)
Lemma TrimSuffix_restore (s suffix : string) :
  HasSuffix s suffix = true -> TrimSuffix s suffix ++ suffix = s.
Proof.
  intros Hs. unfold TrimSuffix. rewrite Hs.
  unfold HasSuffix in Hs. apply andb_true_iff in Hs as [Hlen Heq].
  apply Nat.leb_le in Hlen. apply String.eqb_eq in Heq.
  pose proof (@substring_split s
                (String.length s - String.length suffix)%nat) as E.
  replace (String.length s - (String.length s - String.length suffix))%nat
    with (String.length suffix) in E by lia.
  rewrite Heq in E. apply E. lia.
Qed.

(** [Split] never returns the empty list. *)
Lemma Split_not_nil (s : string) (sep : ascii) : Split s sep <> [].
Proof.
  destruct s as [|c s]; simpl; [discriminate|].
  destruct (Ascii.eqb c sep); [discriminate|].
  destruct (Split s sep); discriminate.
Qed.

Section Command.

Context {W : Type} `{Host W}.

(** ** The tags *)

Lemma fold_tag_step (pieces : list string) : forall (acc : list string)
                                                    (e : bool),
  fold_left tag_step pieces (acc, e) =
  ((acc ++ filter (fun t => negb (t =? "")) (map TrimSpace pieces))%list,
   e || existsb (fun t => t =? "exp") (map TrimSpace pieces)).
Proof.
  induction pieces as [|p pieces IH]; intros acc e; simpl.
  - rewrite app_nil_r, orb_false_r. reflexivity.
  - rewrite IH.
    destruct (TrimSpace p =? "") eqn:Eempty,
             (TrimSpace p =? "exp") eqn:Eexp; simpl.
    + apply String.eqb_eq in Eempty, Eexp. rewrite Eempty in Eexp.
      discriminate.
    + reflexivity.
    + rewrite <- app_assoc, orb_true_r. reflexivity.
    + rewrite <- app_assoc. destruct e; reflexivity.
Qed.

Lemma existsb_exp_filter (l : list string) :
  existsb (fun t => t =? "exp") (filter (fun t => negb (t =? "")) l)
  = existsb (fun t => t =? "exp") l.
Proof.
  induction l as [|x l IH]; simpl; [reflexivity|].
  destruct (x =? "") eqn:Eempty; simpl.
  - apply String.eqb_eq in Eempty. subst x. simpl. exact IH.
  - rewrite IH. reflexivity.
Qed.

(** What the loop over the tags computes. *)
Lemma parseTags_eq (tags : string) :
  fst (parseTags tags) =
  filter (fun t => negb (t =? ""))
         (map TrimSpace (Split tags " "%char)) /\
  snd (parseTags tags) =
  existsb (fun t => t =? "exp") (fst (parseTags tags)).
Proof.
  unfold parseTags. rewrite fold_tag_step. simpl.
  split; [reflexivity|]. symmetry. apply existsb_exp_filter.
Qed.

(** X11: The user tags are the pieces between single spaces, trimmed, without
    the empty ones and in their order; and the build counts as
    experimental exactly when [exp] is one of the user tags. *)
Theorem parseTags_spec (tags : string) :
  fst (parseTags tags) =
  filter (fun t => negb (t =? ""))
         (map TrimSpace (Split tags " "%char)) /\
  snd (parseTags tags) =
  existsb (fun t => t =? "exp") (fst (parseTags tags)).
Proof. exact (parseTags_eq tags). Qed.

(** ** The WebView2 strategy *)

(** X12: The flag is read in lower case.  Empty and [download] give no build
    tag; [embed], [browser] and [error] give [wv2runtime.] followed by the
    value; anything else is refused with the lower-case value in the
    message. *)
Theorem webview2Strategy_spec (webview2 : string) :
  webview2Strategy webview2 =
  if (ToLower webview2 =? "") || (ToLower webview2 =? "download")
  then inr ""
  else if Contains ["embed"; "browser"; "error"] (ToLower webview2)
       then inr ("wv2runtime." ++ ToLower webview2)
       else inl ("invalid option for flag 'webview2': " ++ ToLower webview2).
Proof.
  unfold webview2Strategy, Contains, validWV2Runtime. simpl.
  rewrite !(String.eqb_sym (ToLower webview2)).
  destruct (String.eqb_spec "" (ToLower webview2)) as [<- | _];
    [reflexivity|].
  destruct (String.eqb_spec "download" (ToLower webview2)) as [<- | _];
    [reflexivity|].
  destruct (String.eqb_spec "embed" (ToLower webview2)) as [<- | _];
    [reflexivity|].
  destruct (String.eqb_spec "browser" (ToLower webview2)) as [<- | _];
    [reflexivity|].
  destruct (String.eqb_spec "error" (ToLower webview2)) as [<- | _];
    reflexivity.
Qed.

(** ** One target *)

(** The supported platforms, spelled out. *)
Lemma valid_platform_cases (platform : string) :
  Contains validPlatformArch platform = true ->
  In platform validPlatformArch.
Proof.
  unfold Contains. intros Hc. apply existsb_exists in Hc as [x [Hin Hx]].
  apply String.eqb_eq in Hx. subst x. exact Hin.
Qed.

(** What making a target ready can change. *)
Lemma prepareTarget_changes
        (targets : list string) (p : option Project) (r r' : Run)
        (platform : string) :
  prepareTarget targets p r platform = Ready r' \/
  prepareTarget targets p r platform = Skip r' ->
  same_but_target (buildOptions r) (buildOptions r') /\
  world r' = world r /\
  (compress' r' = compress' r \/ compress' r' = false) /\
  builds (said r') = builds (said r).
Proof.
  unfold prepareTarget, same_but_target.
  destruct (negb (Contains validPlatformArch platform)).
  { intros [E | E]; inversion E; subst; simpl; auto 20. }
  destruct p as [p|]; [|intros [E | E]; discriminate].
  split_ifs; intros [E | E]; inversion E; subst; simpl; auto 20.
Qed.

(** X13: Making a target ready touches the platform, the architecture, the
    bundle name and the output file of the build options and nothing else
    of them: the [Compress] field, too, is as the flag set it, also after
    the warning for [darwin/universal], which clears the closure's own
    variable.  The world is left alone and nothing is built. *)
Theorem prepareTarget_frame
        (targets : list string) (p : option Project) (r r' : Run)
        (platform : string) :
  prepareTarget targets p r platform = Ready r' \/
  prepareTarget targets p r platform = Skip r' ->
  same_but_target (buildOptions r) (buildOptions r') /\
  world r' = world r /\
  (compress' r' = compress' r \/ compress' r' = false) /\
  builds (said r') = builds (said r).
Proof. exact (prepareTarget_changes targets p r platform). Qed.

(** X14: A Windows target is made ready on every host.  Its output file ends
    in [.exe]; with a single target it is the name the project asks for
    with [.exe] put after it unless it is there already, and with several
    targets the architecture comes in between. *)
Theorem windows_target_filename
        (targets : list string) (p : Project) (r : Run) (platform : string) :
  In platform ["windows"; "windows/amd64"; "windows/arm64"] ->
  exists r' : Run,
    prepareTarget targets (Some p) r platform = Ready r' /\
    Platform (buildOptions r') = "windows" /\
    HasSuffix (OutputFile (buildOptions r')) ".exe" = true /\
    OutputFile (buildOptions r') =
    (if (1 <? List.length targets)%nat
     then TrimSuffix (wanted_name p) ".exe" ++ "-" ++ Arch (buildOptions r')
     else TrimSuffix (wanted_name p) ".exe") ++ ".exe" /\
    ((List.length targets <= 1)%nat ->
     HasSuffix (wanted_name p) ".exe" = true ->
     OutputFile (buildOptions r') = wanted_name p).
Proof.
  intros Hin.
  unfold prepareTarget, targetFilename.
  fold (wanted_name p).
  remember (1 <? List.length targets)%nat as many eqn:Emany.
  remember (TrimSuffix (wanted_name p) ".exe") as base eqn:Ebase.
  destruct Hin as [<- | [<- | [<- | []]]];
    destruct IsAppleSilicon; cbn; rewrite andb_false_r;
    (eexists; split; [reflexivity|]; cbn;
     split; [reflexivity|];
     split; [apply HasSuffix_app|];
     split; [destruct many; reflexivity|];
     intros Hlen Hs;
     apply Nat.ltb_ge in Hlen; rewrite Hlen in Emany; subst many base;
     apply TrimSuffix_restore; exact Hs).
Qed.

(** X15: For a supported target the platform of the build options is one of
    the three platform names.  A target that is just a platform name is
    that platform and gets the host's architecture; every other supported
    target is platform, slash, architecture of the build options. *)
Theorem target_platform_round_trip
        (targets : list string) (p : Project) (r r' : Run)
        (platform : string) :
  Contains validPlatformArch platform = true ->
  prepareTarget targets (Some p) r platform = Ready r' \/
  prepareTarget targets (Some p) r platform = Skip r' ->
  In (Platform (buildOptions r')) platform_names /\
  if Contains platform_names platform
  then Platform (buildOptions r') = platform /\
       Arch (buildOptions r') = default_arch
  else Platform (buildOptions r') ++ "/" ++ Arch (buildOptions r')
       = platform.
Proof.
  intros Hvalid. apply valid_platform_cases in Hvalid.
  unfold default_arch, prepareTarget, targetFilename, platform_names.
  remember (1 <? List.length targets)%nat as many.
  remember (TrimSuffix _ ".exe") as base.
  simpl in Hvalid.
  repeat (destruct Hvalid as [<- | Hvalid]); try contradiction;
    destruct IsAppleSilicon; cbn; split_ifs;
    intros [E | E]; inversion E; subst; cbn; (split; [tauto | auto]).
Qed.

Lemma prepareTarget_Ready_supported
      (targets : list string) (p : option Project) (r r' : Run)
      (platform : string) :
  prepareTarget targets p r platform = Ready r' ->
  Contains validPlatformArch platform = true.
Proof.
  unfold prepareTarget.
  destruct (Contains validPlatformArch platform); [reflexivity|].
  simpl. discriminate.
Qed.

(** X16: A Linux target on a host that is not Linux, and a Mac target on a host
    that is not a Mac, is skipped: nothing is built and the world is as it
    was. *)
Theorem cross_compile_skipped
        (targets : list string) (p : Project) (r : Run) (platform : string) :
  Contains validPlatformArch platform = true ->
  HasPrefix platform "linux" = true /\ (GOOS =? "linux") = false \/
  HasPrefix platform "darwin" = true /\ (GOOS =? "darwin") = false ->
  exists r' : Run,
    buildTarget targets (Some p) r platform = Some r' /\
    world r' = world r /\
    builds (said r') = builds (said r).
Proof.
  intros Hvalid Hcross.
  assert (Hskip : exists r', prepareTarget targets (Some p) r platform
                             = Skip r').
  { apply valid_platform_cases in Hvalid.
    unfold prepareTarget, targetFilename.
    remember (1 <? List.length targets)%nat as many.
    remember (TrimSuffix _ ".exe") as base.
    simpl in Hvalid.
    repeat (destruct Hvalid as [<- | Hvalid]); try contradiction;
      destruct Hcross as [[Hp Hg] | [Hp Hg]];
      try (vm_compute in Hp; discriminate);
      destruct IsAppleSilicon; cbn; rewrite ?Hg; cbn;
      split_ifs; eexists; reflexivity. }
  destruct Hskip as [r' Hskip]. exists r'.
  unfold buildTarget. rewrite Hskip. split; [reflexivity|].
  destruct (prepareTarget_changes targets (Some p) r platform (or_intror Hskip))
    as (_ & Hw & _ & Hb).
  split; assumption.
Qed.

(** ** All targets *)

Lemma buildTarget_builds
      (targets : list string) (p : option Project) (r r' : Run)
      (platform : string) :
  buildTarget targets p r platform = Some r' ->
  builds (said r') = builds (said r) \/
  Contains validPlatformArch platform = true /\
  exists o : Options, builds (said r') = o :: builds (said r).
Proof.
  unfold buildTarget.
  destruct (prepareTarget targets p r platform) as [|r0|r0] eqn:E.
  - discriminate.
  - intros E'. inversion E'; subst. left.
    apply (prepareTarget_changes targets p r platform (or_intror E)).
  - pose proof (prepareTarget_Ready_supported _ _ _ _ E) as Hsup.
    destruct (prepareTarget_changes targets p r platform (or_introl E))
      as (_ & _ & _ & Hb).
    destruct (build_Build (buildOptions r0) (world r0)) as [[res o] w].
    destruct res; intros E'; inversion E'; subst; simpl; right;
      (split; [exact Hsup|]); eexists; rewrite Hb; reflexivity.
Qed.

(** X17: [build.Build] is called at most once for every supported target, and
    never for another one. *)
Theorem builds_at_most_one_per_target
        (targets : list string) (p : option Project) (rest : list string) :
  forall r : Run,
    (List.length (builds (said (last_run (Each targets rest p r))))
     <= List.length (builds (said r))
        + List.length (filter (Contains validPlatformArch) rest))%nat.
Proof.
  induction rest as [|platform rest IH]; intros r; cbn [Each filter].
  - simpl. lia.
  - destruct (buildTarget targets p r platform) as [r1|] eqn:E.
    + specialize (IH r1).
      destruct (buildTarget_builds _ _ _ _ E) as [Hb | [Hsup [o Hb]]].
      * rewrite Hb in IH.
        destruct (Contains validPlatformArch platform);
          cbn [List.length]; lia.
      * rewrite Hb in IH. rewrite Hsup. cbn [List.length] in *. lia.
    + cbn [last_run]. lia.
Qed.

(** The loop on a nil project. *)
Lemma Each_nil_project
        (targets : list string) (rest : list string) :
  forall r : Run,
    match Each targets rest None r with
    | inl r' =>
        existsb (Contains validPlatformArch) rest = true /\
        world r' = world r /\ builds (said r') = builds (said r)
    | inr r' =>
        existsb (Contains validPlatformArch) rest = false /\
        world r' = world r /\ builds (said r') = builds (said r)
    end.
Proof.
  induction rest as [|platform rest IH]; intros r; cbn [Each existsb].
  - auto.
  - unfold buildTarget, prepareTarget.
    destruct (Contains validPlatformArch platform); cbn [negb orb].
    + auto.
    + specialize (IH (say (EvLog "platform '%s' is not supported - skipping. Supported platforms: %s"
                                 [platform; Join validPlatformArch ","]) r)).
      destruct (Each targets rest None _) as [r'|r']; exact IH.
Qed.

(** X18: When the project could not be loaded and [projectOptions] is nil, the
    loop panics at the first supported target, before anything is built;
    it runs to its end only if no target is supported. *)
Theorem nil_project_panics_at_first_supported_target
        (targets : list string) (rest : list string) :
  forall r : Run,
    match Each targets rest None r with
    | inl r' =>
        existsb (Contains validPlatformArch) rest = true /\
        world r' = world r /\ builds (said r') = builds (said r)
    | inr r' =>
        existsb (Contains validPlatformArch) rest = false /\
        world r' = world r /\ builds (said r') = builds (said r)
    end.
Proof. exact (Each_nil_project targets rest). Qed.

(** *** The output file the options start with *)

Lemma differ_refl (r : Run (W := W)) : differ_in_OutputFile r r.
Proof.
  exists (OutputFile (buildOptions r)).
  destruct r as [w o c t]. destruct o. reflexivity.
Qed.

Lemma differ_forget (r r2 : Run (W := W)) :
  differ_in_OutputFile r r2 -> forget_OutputFile r2 = forget_OutputFile r.
Proof. intros [x ->]. reflexivity. Qed.

Lemma prepareTarget_differ
      (targets : list string) (p : option Project) (r : Run) (x : string)
      (platform : string) :
  match prepareTarget targets p r platform with
  | Panic =>
      prepareTarget targets p
        (with_options (set_OutputFile x (buildOptions r)) r) platform
      = Panic
  | Skip r' =>
      prepareTarget targets p
        (with_options (set_OutputFile x (buildOptions r)) r) platform
      = Skip (with_options (set_OutputFile x (buildOptions r')) r')
  | Ready r' =>
      prepareTarget targets p
        (with_options (set_OutputFile x (buildOptions r)) r) platform
      = Ready r'
  end.
Proof.
  unfold prepareTarget.
  destruct (negb (Contains validPlatformArch platform)); [reflexivity|].
  destruct p as [p|]; [|reflexivity].
  cbn [buildOptions with_options]. unfold targetFilename.
  remember (TrimSuffix _ ".exe") as base.
  remember (Split platform "/"%char) as parts.
  remember (filter _ targets) as mac.
  destruct IsAppleSilicon, (List.length parts =? 2)%nat,
           (compress' r && (platform =? "darwin/universal"));
    cbn -[String.eqb Nat.eqb Nat.ltb append]; split_ifs;
    first [ reflexivity
          | cbn [Platform Arch set_BundleName set_Arch set_Platform
                 set_OutputFile] in *; congruence ].
Qed.

Lemma buildTarget_differ
      (targets : list string) (p : option Project) (r r2 : Run)
      (platform : string) :
  differ_in_OutputFile r r2 ->
  match buildTarget targets p r platform,
        buildTarget targets p r2 platform with
  | None, None => True
  | Some a, Some b => differ_in_OutputFile a b
  | _, _ => False
  end.
Proof.
  intros [x ->]. unfold buildTarget.
  pose proof (prepareTarget_differ targets p r x platform) as E.
  destruct (prepareTarget targets p r platform) as [|r'|r']; rewrite E.
  - exact I.
  - exists x. reflexivity.
  - destruct (build_Build (buildOptions r') (world r')) as [[[e|v] o] w];
      apply differ_refl.
Qed.

Lemma Each_differ
      (targets : list string) (p : option Project) (rest : list string) :
  forall r r2 : Run,
    differ_in_OutputFile r r2 ->
    match Each targets rest p r, Each targets rest p r2 with
    | inl a, inl b => differ_in_OutputFile a b
    | inr a, inr b => differ_in_OutputFile a b
    | _, _ => False
    end.
Proof.
  induction rest as [|platform rest IH]; intros r r2 Hd; cbn [Each].
  - exact Hd.
  - pose proof (buildTarget_differ targets p platform Hd) as Hstep.
    destruct (buildTarget targets p r platform) as [a|],
             (buildTarget targets p r2 platform) as [b|];
      try contradiction.
    + apply IH. exact Hstep.
    + exact Hd.
Qed.

(** X19: The output file that the options start with, which is the [-o] flag,
    reaches no [build.Build]: whatever it is, the loop over the targets
    makes the same calls with the same options, says the same and leaves
    the same world; only the output file of the options it ends with can
    differ, when no target got as far as being built. *)
Theorem initial_output_file_is_not_used
        (targets : list string) (p : option Project) (rest : list string)
        (r : Run) (x : string) :
  forget_both
    (Each targets rest p (with_options (set_OutputFile x (buildOptions r)) r))
  = forget_both (Each targets rest p r).
Proof.
  assert (Hd : differ_in_OutputFile
                 r (with_options (set_OutputFile x (buildOptions r)) r))
    by (exists x; reflexivity).
  pose proof (Each_differ targets p rest Hd) as E.
  destruct (Each targets rest p r) as [a|a],
           (Each targets rest p _) as [b|b]; try contradiction;
    simpl; f_equal; apply differ_forget; exact E.
Qed.

(** *** The frontend is built once *)

Lemma prepareTarget_trace
      (targets : list string) (p : option Project) (r r' : Run)
      (platform : string) :
  prepareTarget targets p r platform = Ready r' \/
  prepareTarget targets p r platform = Skip r' ->
  has_success (said r') = has_success (said r) /\
  frontend_built_once (said r') = frontend_built_once (said r).
Proof.
  unfold prepareTarget.
  destruct (negb (Contains validPlatformArch platform)).
  { intros [E | E]; inversion E; subst; simpl; auto. }
  destruct p as [p|]; [|intros [E | E]; discriminate].
  split_ifs; intros [E | E]; inversion E; subst; simpl; auto.
Qed.

Lemma no_builds_no_success (t : list Event) :
  builds t = [] -> has_success t = false /\ frontend_built_once t = true.
Proof.
  induction t as [|e t IH]; simpl; [auto|].
  destruct e; simpl; try exact IH. discriminate.
Qed.

Lemma buildTarget_keeps_frontend_once
      (targets : list string) (p : option Project) (r r' : Run)
      (platform : string) :
  (forall (o : Options) (w : W),
      IgnoreFrontend (snd (fst (build_Build o w))) = IgnoreFrontend o /\
      CleanBuildDirectory (snd (fst (build_Build o w)))
      = CleanBuildDirectory o) ->
  frontend_built_once (said r) = true ->
  (has_success (said r) = true ->
   IgnoreFrontend (buildOptions r) = true /\
   CleanBuildDirectory (buildOptions r) = false) ->
  buildTarget targets p r platform = Some r' ->
  frontend_built_once (said r') = true /\
  (has_success (said r') = true ->
   IgnoreFrontend (buildOptions r') = true /\
   CleanBuildDirectory (buildOptions r') = false).
Proof.
  intros Hkeep Honce Hflags. unfold buildTarget.
  destruct (prepareTarget targets p r platform) as [|r0|r0] eqn:E.
  - discriminate.
  - intros E'. inversion E'; subst r'.
    destruct (prepareTarget_trace targets p r platform (or_intror E))
      as [Hs Ho].
    destruct (prepareTarget_changes targets p r platform (or_intror E))
      as (Hsame & _).
    unfold same_but_target in Hsame.
    destruct Hsame as (_ & Hc & _ & _ & _ & _ & _ & _ & _ & Hi & _).
    rewrite Hs, Ho, Hc, Hi. split; assumption.
  - destruct (prepareTarget_trace targets p r platform (or_introl E))
      as [Hs Ho].
    destruct (prepareTarget_changes targets p r platform (or_introl E))
      as (Hsame & _).
    unfold same_but_target in Hsame.
    destruct Hsame as (_ & Hc & _ & _ & _ & _ & _ & _ & _ & Hi & _).
    specialize (Hkeep (buildOptions r0) (world r0)).
    destruct (build_Build (buildOptions r0) (world r0)) as [[res o] w].
    simpl in Hkeep. destruct Hkeep as [Hki Hkc].
    assert (Hcall : (if has_success (said r0)
                     then IgnoreFrontend (buildOptions r0)
                          && negb (CleanBuildDirectory (buildOptions r0))
                     else true) = true).
    { rewrite Hs, Hi, Hc.
      destruct (has_success (said r)); [|reflexivity].
      destruct (Hflags eq_refl) as [-> ->]. reflexivity. }
    destruct res as [err|name]; intros E'; inversion E'; subst r'; simpl.
    + rewrite Hcall, Ho, Honce. split; [reflexivity|].
      rewrite Hs, Hki, Hkc, Hi, Hc. exact Hflags.
    + rewrite Hcall, Ho, Honce. split; [reflexivity|]. auto.
Qed.

(** X20: If [build.Build] itself leaves the two fields of the options alone,
    then once a build has succeeded every later build is told to skip the
    frontend and not to clean the build directory, also when builds fail
    in between. *)
Theorem frontend_built_once_over_targets
        (targets : list string) (p : option Project) (rest : list string)
        (r : Run) :
  (forall (o : Options) (w : W),
      IgnoreFrontend (snd (fst (build_Build o w))) = IgnoreFrontend o /\
      CleanBuildDirectory (snd (fst (build_Build o w)))
      = CleanBuildDirectory o) ->
  builds (said r) = [] ->
  frontend_built_once (said (last_run (Each targets rest p r))) = true.
Proof.
  intros Hkeep Hnone.
  destruct (no_builds_no_success _ Hnone) as [Hns Honce].
  assert (Hflags : has_success (said r) = true ->
                   IgnoreFrontend (buildOptions r) = true /\
                   CleanBuildDirectory (buildOptions r) = false)
    by (rewrite Hns; discriminate).
  clear Hnone Hns. revert r Honce Hflags.
  induction rest as [|platform rest IH]; intros r Honce Hflags; cbn [Each].
  - exact Honce.
  - destruct (buildTarget targets p r platform) as [r1|] eqn:E.
    + destruct (buildTarget_keeps_frontend_once
                  targets p r platform Hkeep Honce Hflags E) as [H1 H2].
      apply IH; assumption.
    + exact Honce.
Qed.

(** ** The go.mod check *)


(** X22: A go.mod that is in sync is left alone without a word, whether or not
    an update was asked for. *)
Theorem go_mod_in_sync_is_silent
        (updateGoMod : bool) (w : W) (out : list Event)
        (cwd gomodData : string) :
  Getwd w = inr cwd ->
  ReadFile (filepath_Join cwd "go.mod") w = inr gomodData ->
  GoModOutOfSync gomodData Version = inr false ->
  checkGoModVersion updateGoMod w out = (None, w, out) /\
  syncGoModVersion cwd w out = (None, w, out).
Proof.
  intros Hcwd Hread Hsync.
  unfold checkGoModVersion, syncGoModVersion.
  rewrite Hcwd, Hread, Hsync. split; reflexivity.
Qed.

Lemma checkGoModVersion_builds
      (updateGoMod : bool) (w w' : W) (out out' : list Event)
      (e : option error) :
  checkGoModVersion updateGoMod w out = (e, w', out') ->
  builds out' = builds out.
Proof.
  unfold checkGoModVersion, syncGoModVersion.
  destruct (Getwd w) as [err|cwd]; [intros E; inversion E; auto|].
  destruct (ReadFile (filepath_Join cwd "go.mod") w) as [err|data];
    [intros E; inversion E; auto|].
  destruct (GoModOutOfSync data Version) as [err|[|]]; simpl;
    [intros E; inversion E; auto| |intros E; inversion E; auto].
  destruct (GetWailsVersionFromModFile data) as [err|version];
    [intros E; inversion E; auto|].
  destruct updateGoMod; [|intros E; inversion E; auto].
  destruct (UpdateGoModVersion data Version) as [err|new];
    [intros E; inversion E; auto|].
  destruct (WriteFile (filepath_Join cwd "go.mod") new 493 w) as [e0 w0].
  intros E; inversion E; subst. reflexivity.
Qed.

(** ** The action as a whole *)

Lemma builds_app (a b : list Event) :
  builds (a ++ b) = (builds a ++ builds b)%list.
Proof.
  induction a as [|e a IH]; simpl; [reflexivity|].
  destruct e; simpl; rewrite ?IH; reflexivity.
Qed.

Lemma builds_systemInformation
      (o : Options) (f : Flags) (compilerPath modeString : string)
      (ntargets : nat) :
  builds (systemInformation o f compilerPath modeString ntargets) = [].
Proof.
  unfold systemInformation.
  destruct ((0 <? String.length (OutputFile o))%nat && (ntargets =? 1)%nat);
    reflexivity.
Qed.

Lemma buildTarget_with_project
      (targets : list string) (p : Project) (r : Run) (platform : string) :
  buildTarget targets (Some p) r platform <> None.
Proof.
  unfold buildTarget.
  destruct (prepareTarget targets (Some p) r platform) as [|r'|r'] eqn:E.
  - exfalso. revert E. unfold prepareTarget. split_ifs; discriminate.
  - discriminate.
  - destruct (build_Build (buildOptions r') (world r')) as [[[e|v] o] w];
      discriminate.
Qed.

Lemma Each_with_project
      (targets : list string) (p : Project) (rest : list string) :
  forall r : Run, exists r' : Run, Each targets rest (Some p) r = inr r'.
Proof.
  induction rest as [|platform rest IH]; intros r; cbn [Each].
  - exists r. reflexivity.
  - destruct (buildTarget targets (Some p) r platform) as [r1|] eqn:E.
    + apply IH.
    + exfalso. exact (buildTarget_with_project _ _ _ _ E).
Qed.

(** X23: A failing build is never the error of the command: whenever
    [build.Build] has been called at all, the action returns nil.  An
    error, and a panic as well, comes before anything is built. *)
Theorem action_returns_nil_once_building
        (f : Flags) (w w' : W) (x : Outcome) (t : list Event) :
  Action f w = (x, w', t) ->
  builds t = [] \/ x = Returned None.
Proof.
  unfold Action.
  change (negb (Contains validTargetTypes outputType)) with false.
  cbv iota.
  assert (Hstart : builds (if negb (verbosity f =? 0)%Z
                           then [EvBanner; EvMute (verbosity f =? 0)%Z]
                           else [EvMute (verbosity f =? 0)%Z]) = [])
    by (destruct (negb (verbosity f =? 0)%Z); reflexivity).
  destruct (LookPath (compilerCommand f) w) as [err|compilerPath];
    [intros E; inversion E; subst; left; exact Hstart|].
  destruct (parseTags (tags f)) as [userTags experimental].
  destruct ((GOOS =? "linux") && negb experimental);
    [intros E; inversion E; subst; left; exact Hstart|].
  destruct (webview2Strategy (webview2 f)) as [err|wv2rtstrategy];
    [intros E; inversion E; subst; left; exact Hstart|].
  match goal with
  | |- context [checkGoModVersion ?u ?w0 ?o] =>
      destruct (checkGoModVersion u w0 o) as [[e1 w1] out1] eqn:Echeck;
      assert (Hout1 : builds out1 = [])
  end.
  { rewrite (checkGoModVersion_builds _ _ _ Echeck).
    rewrite builds_app, builds_systemInformation. exact Hstart. }
  destruct e1 as [err|];
    [intros E; inversion E; subst; left; exact Hout1|].
  destruct (Getwd w1) as [err|cwd];
    [intros E; inversion E; subst; left; exact Hout1|].
  destruct (project_Load cwd w1) as [p|].
  - match goal with
    | |- context [Each ?ts ?rest (Some p) ?r0] =>
        destruct (Each_with_project ts p rest r0) as [r' ->]
    end.
    intros E; inversion E; subst. right. reflexivity.
  - match goal with
    | |- context [Each ?ts ?rest None ?r0] =>
        pose proof (Each_nil_project ts rest r0)
          as Hnil;
        destruct (Each ts rest None r0) as [r'|r']
    end;
      destruct Hnil as (_ & _ & Hb); simpl in Hb;
      intros E; inversion E; subst; left; rewrite Hb; exact Hout1.
Qed.

(** X24: On a Linux host the action ends with ["Linux version coming soon!"]
    unless one of the tags is [exp]: after the banner, if not quiet, and
    before go.mod, the project or any target is looked at. *)
Theorem linux_needs_exp_tag
        (f : Flags) (w : W) (compilerPath : string) :
  (GOOS =? "linux") = true ->
  LookPath (compilerCommand f) w = inr compilerPath ->
  existsb (fun t => t =? "exp")
          (map TrimSpace (Split (tags f) " "%char)) = false ->
  Action f w =
  (Returned (Some "Linux version coming soon!"), w,
   if (verbosity f =? 0)%Z then [EvMute true] else [EvBanner; EvMute false]).
Proof.
  intros Hlinux Hpath Hexp.
  unfold Action.
  change (negb (Contains validTargetTypes outputType)) with false.
  cbv iota. rewrite Hpath.
  pose proof (parseTags_eq (tags f)) as [Htags Hflag].
  destruct (parseTags (tags f)) as [userTags experimental].
  simpl in Htags, Hflag.
  rewrite Htags, existsb_exp_filter, Hexp in Hflag. subst experimental.
  rewrite Hlinux. simpl.
  destruct (verbosity f =? 0)%Z; reflexivity.
Qed.

End Command.

(** ** The properties on the simulated host *)

Lemma prepareTarget_frame_witness :
  exists r' : Run,
    prepareTarget (H := BuildSim.host "darwin" "amd64" false)
      ["darwin/universal"] (Some (BuildSim.demo ""))
      (BuildSim.start (BuildSim.workspace None []) true) "darwin/universal"
    = Ready r' /\
    compress' r' = false /\
    Compress (buildOptions r') = true /\
    BuildSim.built (world r') = [].
Proof.
  eexists. split; [reflexivity|].
  split; [reflexivity|].
  destruct (prepareTarget_frame
              (H := BuildSim.host "darwin" "amd64" false)
              ["darwin/universal"] (Some (BuildSim.demo ""))
              (BuildSim.start (BuildSim.workspace None []) true)
              "darwin/universal" (or_introl eq_refl))
    as (Hsame & Hw & _ & _).
  unfold same_but_target in Hsame.
  destruct Hsame as (_ & _ & _ & _ & _ & _ & _ & _ & _ & _ & Hc & _).
  split.
  - exact (eq_trans Hc eq_refl).
  - exact (eq_trans (f_equal BuildSim.built Hw) eq_refl).
Defined.

Lemma windows_target_filename_witness :
  exists r' : Run,
    prepareTarget (H := BuildSim.host "linux" "amd64" false)
      ["windows"] (Some (BuildSim.demo "demo.exe"))
      (BuildSim.start (BuildSim.workspace None []) false) "windows"
    = Ready r' /\
    OutputFile (buildOptions r') = "demo.exe".
Proof.
  destruct (windows_target_filename
              (H := BuildSim.host "linux" "amd64" false)
              ["windows"] (BuildSim.demo "demo.exe")
              (BuildSim.start (BuildSim.workspace None []) false)
              (platform := "windows") (or_introl eq_refl))
    as (r' & Hready & _ & _ & _ & Hsame).
  exists r'. split; [exact Hready|].
  rewrite Hsame; [reflexivity | simpl; lia | reflexivity].
Defined.

Lemma target_platform_round_trip_witness :
  exists r' : Run,
    prepareTarget (H := BuildSim.host "windows" "amd64" false)
      ["windows/arm64"] (Some (BuildSim.demo ""))
      (BuildSim.start (BuildSim.workspace None []) false) "windows/arm64"
    = Ready r' /\
    Platform (buildOptions r') = "windows" /\
    Platform (buildOptions r') ++ "/" ++ Arch (buildOptions r')
    = "windows/arm64".
Proof.
  eexists. split; [reflexivity|].
  destruct (@target_platform_round_trip
              _ (BuildSim.host "windows" "amd64" false)
              ["windows/arm64"] (BuildSim.demo "")
              (BuildSim.start (BuildSim.workspace None []) false) _
              "windows/arm64" eq_refl (or_introl eq_refl))
    as [_ Hround].
  split; [reflexivity | exact Hround].
Defined.

Lemma cross_compile_skipped_witness :
  exists r' : Run,
    buildTarget (H := BuildSim.host "windows" "amd64" false)
      ["linux/amd64"] (Some (BuildSim.demo ""))
      (BuildSim.start (BuildSim.workspace None []) false) "linux/amd64"
    = Some r' /\
    world r' = BuildSim.workspace None [] /\
    builds (said r') = [].
Proof.
  apply (cross_compile_skipped
           (H := BuildSim.host "windows" "amd64" false)
           ["linux/amd64"] (BuildSim.demo "")
           (BuildSim.start (BuildSim.workspace None []) false)
           "linux/amd64").
  - reflexivity.
  - left. split; reflexivity.
Defined.

Lemma frontend_built_once_over_targets_witness :
  map (fun o => (Arch o, IgnoreFrontend o))
      (builds
         (said
            (last_run
               (Each (H := BuildSim.host "windows" "amd64" false)
                  ["windows/amd64"; "windows/arm64"]
                  ["windows/amd64"; "windows/arm64"]
                  (Some (BuildSim.demo ""))
                  (BuildSim.start (BuildSim.workspace None []) false)))))
  = [("arm64", true); ("amd64", false)] /\
  frontend_built_once
    (said
       (last_run
          (Each (H := BuildSim.host "windows" "amd64" false)
             ["windows/amd64"; "windows/arm64"]
             ["windows/amd64"; "windows/arm64"]
             (Some (BuildSim.demo ""))
             (BuildSim.start (BuildSim.workspace None []) false))))
  = true.
Proof.
  split; [reflexivity|].
  apply (frontend_built_once_over_targets
           (H := BuildSim.host "windows" "amd64" false)).
  - intros o w. simpl.
    destruct (Contains (BuildSim.failing w) (Platform o)); split; reflexivity.
  - reflexivity.
Defined.


Lemma go_mod_in_sync_is_silent_witness :
  checkGoModVersion (H := BuildSim.host "windows" "amd64" false)
    true (BuildSim.workspace None []) []
  = (None, BuildSim.workspace None [], []) /\
  syncGoModVersion (H := BuildSim.host "windows" "amd64" false)
    "/work" (BuildSim.workspace None []) []
  = (None, BuildSim.workspace None [], []).
Proof.
  apply (go_mod_in_sync_is_silent
           (H := BuildSim.host "windows" "amd64" false)
           true (BuildSim.workspace None []) []
           (cwd := "/work") (gomodData := "v2.0.0"));
    reflexivity.
Defined.

Lemma action_returns_nil_once_building_witness :
  fst (fst (Action (H := BuildSim.host "windows" "amd64" false)
              (BuildSim.flags "windows" "" "")
              (BuildSim.workspace (Some (BuildSim.demo "")) ["windows"])))
  = Returned None /\
  map OutputFile
      (builds
         (snd (Action (H := BuildSim.host "windows" "amd64" false)
                 (BuildSim.flags "windows" "" "")
                 (BuildSim.workspace (Some (BuildSim.demo "")) ["windows"]))))
  = ["demo.exe"] /\
  BuildSim.built
    (snd (fst (Action (H := BuildSim.host "windows" "amd64" false)
                 (BuildSim.flags "windows" "" "")
                 (BuildSim.workspace (Some (BuildSim.demo "")) ["windows"]))))
  = [].
Proof.
  split; [|split; reflexivity].
  destruct (Action (H := BuildSim.host "windows" "amd64" false)
              (BuildSim.flags "windows" "" "")
              (BuildSim.workspace (Some (BuildSim.demo "")) ["windows"]))
    as [[x w'] t] eqn:E.
  destruct (action_returns_nil_once_building
              (H := BuildSim.host "windows" "amd64" false) _ _ E)
    as [Hnone | Hnil].
  - exfalso.
    assert (Ht : t = snd (Action (H := BuildSim.host "windows" "amd64" false)
                            (BuildSim.flags "windows" "" "")
                            (BuildSim.workspace (Some (BuildSim.demo ""))
                                                ["windows"])))
      by (rewrite E; reflexivity).
    rewrite Ht in Hnone. vm_compute in Hnone. discriminate Hnone.
  - exact Hnil.
Defined.

Lemma linux_needs_exp_tag_witness :
  Action (H := BuildSim.host "linux" "amd64" false)
    (BuildSim.flags "linux" "dev  debug" "")
    (BuildSim.workspace (Some (BuildSim.demo "")) [])
  = (Returned (Some "Linux version coming soon!"),
     BuildSim.workspace (Some (BuildSim.demo "")) [],
     [EvBanner; EvMute false]).
Proof.
  apply (linux_needs_exp_tag
           (H := BuildSim.host "linux" "amd64" false)
           (BuildSim.flags "linux" "dev  debug" "")
           (BuildSim.workspace (Some (BuildSim.demo "")) [])
           (compilerPath := "/usr/bin/go")); reflexivity.
Defined.

(** With [exp] among the tags the Linux build goes ahead. *)
Example linux_with_exp_tag_builds :
  let '(x, w, t) :=
    Action (H := BuildSim.host "linux" "amd64" false)
      (BuildSim.flags "linux" "dev exp" "")
      (BuildSim.workspace (Some (BuildSim.demo "")) []) in
  x = Returned None /\ BuildSim.built w = ["demo"] /\
  map UserTags (builds t) = [["dev"; "exp"]].
Proof. repeat split. Qed.

(** The [-o] flag shows in the system information and in no build. *)
Example output_flag_is_only_printed :
  let '(x, w, t) :=
    Action (H := BuildSim.host "windows" "amd64" false)
      (BuildSim.flags "windows" "" "out.exe")
      (BuildSim.workspace (Some (BuildSim.demo "")) []) in
  x = Returned None /\ BuildSim.built w = ["demo.exe"] /\
  In (EvFprintf ("Output File: " ++ tab ++ "%s" ++ nl) [AStr "out.exe"]) t.
Proof. repeat split. vm_compute. tauto. Qed.

End BuildFacts.
